(** * MQTT services of the ESP32 IoT demo: a shallow embedding

    Embedded sources:
    - [src/services/mqtt.c]: [processar_mensagem_mqtt], [mqtt_event_handler],
      [mqtt_app_start], [mqtt_publish_data], [mqtt_publisher_task];
    - [src/services/mqtt_system.h]: [mqtt_statistics_t] and the declared
      statistics / connectivity interface;
    - [src/tasks/custom_publish_task.c], [src/tasks/sensor_simulate_task.c].

    Target: ESP32 (ILP32): [int] and [size_t] are 32 bits wide. *)

From Stdlib Require Import Ascii String DecimalString.
From Stdlib Require Import ZArith List Lia Bool.
Import ListNotations.

Local Open Scope Z_scope.

(** ** C integer types *)

Module CTypes.

Definition INT_MAX : Z := 2147483647.
Definition INT_MIN : Z := -2147483648.
Definition UINT_MAX : Z := 4294967295.

(** Conversion to an unsigned 32-bit type ([size_t], [uint32_t]). *)
Definition to_size_t (z : Z) : Z := z mod 2 ^ 32.
Definition to_uint32 (z : Z) : Z := z mod 2 ^ 32.

(** Conversion to [int] (two's complement wrap-around, as gcc does). *)
Definition to_int (z : Z) : Z := (z + 2 ^ 31) mod 2 ^ 32 - 2 ^ 31.

Definition in_int (z : Z) : Prop := INT_MIN <= z <= INT_MAX.

End CTypes.

(** ** C strings and the libc routines the handler uses

    A [char] is an [ascii]; a region of memory read as a C string is the list
    of its chars.  Reading the end of the list yields the terminator, which is
    how a string literal (a list without its final NUL) is read. *)

Module CString.

Definition NUL : ascii := Ascii.zero.

Definition lit (s : string) : list ascii := list_ascii_of_string s.

Definition uchar (c : ascii) : Z := Z.of_N (N_of_ascii c).

Definition is_nul (c : ascii) : bool := Ascii.eqb c NUL.

(** The chars before the first NUL. *)
Fixpoint cstr (s : list ascii) : list ascii :=
  match s with
  | [] => []
  | c :: r => if is_nul c then [] else c :: cstr r
  end.

Definition strlen (s : list ascii) : Z := Z.of_nat (length (cstr s)).

(** Text: no NUL among the chars. *)
Definition nul_free (s : list ascii) : Prop := Forall (fun c => c <> NUL) s.

(** [strncmp s1 s2 n]: at most [n] chars are compared, and the comparison
    stops after a NUL that both strings share. *)
Fixpoint strncmp (s1 s2 : list ascii) (n : nat) : Z :=
  match n with
  | O => 0
  | S n' =>
      let c1 := hd NUL s1 in
      let c2 := hd NUL s2 in
      if negb (Ascii.eqb c1 c2) then uchar c1 - uchar c2
      else if is_nul c1 then 0
      else strncmp (tl s1) (tl s2) n'
  end.

Fixpoint strcmp (s1 s2 : list ascii) : Z :=
  match s1 with
  | [] => 0 - uchar (hd NUL s2)
  | c1 :: r1 =>
      let c2 := hd NUL s2 in
      if negb (Ascii.eqb c1 c2) then uchar c1 - uchar c2
      else if is_nul c1 then 0
      else strcmp r1 (tl s2)
  end.

(** [starts_with s p]: the C string [p] occurs at the very start of [s]. *)
Fixpoint starts_with (s p : list ascii) {struct p} : bool :=
  match p with
  | [] => true
  | c :: p' =>
      if is_nul c then true
      else match s with
           | [] => false
           | d :: s' => Ascii.eqb d c && starts_with s' p'
           end
  end.

(** [strstr hay needle]: offset of the first occurrence, [None] for NULL. *)
Fixpoint strstr (hay needle : list ascii) : option nat :=
  if starts_with hay needle then Some O
  else match hay with
       | [] => None
       | c :: r => if is_nul c then None else option_map S (strstr r needle)
       end.

Definition isspace (c : ascii) : bool :=
  let n := uchar c in (n =? 32) || ((9 <=? n) && (n <=? 13)).

Definition isdigit (c : ascii) : bool :=
  let n := uchar c in (48 <=? n) && (n <=? 57).

Fixpoint skip_space (s : list ascii) : list ascii :=
  match s with
  | c :: r => if isspace c then skip_space r else s
  | [] => []
  end.

Fixpoint digits_value (s : list ascii) (acc : Z) : Z :=
  match s with
  | c :: r => if isdigit c then digits_value r (acc * 10 + (uchar c - 48)) else acc
  | [] => acc
  end.

(** [atoi] is [(int) strtol (s, NULL, 10)]; newlib's [strtol] saturates at
    the bounds of [long], which is as wide as [int] on this target. *)
Definition atoi (s : list ascii) : Z :=
  let s := skip_space s in
  let v := match s with
           | c :: r =>
               if Ascii.eqb c "-"%char then - digits_value r 0
               else if Ascii.eqb c "+"%char then digits_value r 0
               else digits_value s 0
           | [] => 0
           end in
  Z.max CTypes.INT_MIN (Z.min CTypes.INT_MAX v).

Fixpoint skip_digits (s : list ascii) : list ascii :=
  match s with
  | c :: r => if isdigit c then skip_digits r else s
  | [] => []
  end.

(** What [atoi] leaves unread: the region from the char at which it stops.
    It stops at the first char that is no digit, behind the blanks and the
    sign. *)
Definition atoi_rest (s : list ascii) : list ascii :=
  match skip_space s with
  | c :: r =>
      if Ascii.eqb c "-"%char || Ascii.eqb c "+"%char then skip_digits r
      else skip_digits (c :: r)
  | [] => []
  end.

(** [atoi (&buf[k])] for an array [buf]: the value, when [atoi] stops at a
    cell of the array; [None] when the cells from [k] on are blanks, a sign
    and digits to the last one, so that [atoi] reads on behind the array and
    the array does not determine the value. *)
Definition atoi_at (k : nat) (buf : list ascii) : option Z :=
  match atoi_rest (skipn k buf) with
  | [] => None
  | _ :: _ => Some (atoi (skipn k buf))
  end.

(** A local array of [n] chars; its initial content is whatever the stack
    holds ([junk], cut or padded to [n] cells). *)
Definition local_array (n : nat) (junk : list ascii) : list ascii :=
  firstn n (junk ++ repeat NUL n).

(** [memcpy dst src n] and the store [buf[i] = c], checked: [None] stands for
    an access outside the destination (or a read outside the source). *)
Definition memcpy (dst src : list ascii) (n : Z) : option (list ascii) :=
  if (n <=? Z.of_nat (length dst)) && (n <=? Z.of_nat (length src)) && (0 <=? n)
  then Some (firstn (Z.to_nat n) src ++ skipn (Z.to_nat n) dst)
  else None.

Definition store (buf : list ascii) (i : Z) (c : ascii) : option (list ascii) :=
  if (0 <=? i) && (i <? Z.of_nat (length buf))
  then Some (firstn (Z.to_nat i) buf ++ c :: skipn (S (Z.to_nat i)) buf)
  else None.

End CString.

(** ** The inbound message handler, [processar_mensagem_mqtt] *)

Module Handler.
Import CTypes CString.

Inductive log_level := LOG_E | LOG_W | LOG_I | LOG_D.

Definition log_level_eqb (a b : log_level) : bool :=
  match a, b with
  | LOG_E, LOG_E | LOG_W, LOG_W | LOG_I, LOG_I | LOG_D, LOG_D => true
  | _, _ => false
  end.

(** What the handler does with a message: the branch of its [if] chain,
    with the arguments of the branch's log line (the line "Processando",
    logged before the chain for every message, is left out).  The valve
    number is [None] where [atoi] reads on behind the topic array (see
    [atoi_at]).  The pump's GPIO calls are
    comments in the source, so the log line is the whole action.  In the
    temperature branch the text handed to [atof] is recorded; the float it
    yields and the comparison with 35.0 are outside this embedding. *)
Inductive action :=
| AcionarBomba
| DesligarBomba
| ComandoDesconhecido (cmd : list ascii)
| ComandoValvula (valvula_num : option Z) (cmd : list ascii)
| TemperaturaRecebida (texto : list ascii)
| TopicoNaoTratado (topico : list ascii).

Definition log_of (a : action) : log_level :=
  match a with
  | AcionarBomba => LOG_I
  | DesligarBomba => LOG_I
  | ComandoDesconhecido _ => LOG_W
  | ComandoValvula _ _ => LOG_I
  | TemperaturaRecebida _ => LOG_I
  | TopicoNaoTratado _ => LOG_D
  end.

Definition sizeof_topic_str : Z := 128.
Definition sizeof_data_str : Z := 256.

(** [len < (sizeof (buf) - 1) ? len : (sizeof (buf) - 1)], assigned to the
    [int] [copy_len].  [len] is an [int] and [sizeof] a [size_t]: the
    comparison and the conditional are unsigned. *)
Definition copy_len (len size : Z) : Z :=
  to_int (if to_size_t len <? size - 1 then to_size_t len else size - 1).

(** The null-terminated copy of [len] bytes at [src] into a local array. *)
Definition bounded_copy (size : Z) (junk src : list ascii) (len : Z)
  : option (list ascii) :=
  let buf := local_array (Z.to_nat size) junk in
  let n := copy_len len size in
  match memcpy buf src (to_size_t n) with
  | Some buf' => store buf' n NUL
  | None => None
  end.

(** The [if] / [else if] chain on the two working copies. *)
Definition dispatch (topic_str data_str : list ascii) : action :=
  if strncmp topic_str (lit "demo/comandos/bomba") 24 =? 0 then
    if strcmp data_str (lit "LIGAR") =? 0 then AcionarBomba
    else if strcmp data_str (lit "DESLIGAR") =? 0 then DesligarBomba
    else ComandoDesconhecido (cstr data_str)
  else if strncmp topic_str (lit "demo/comandos/valvula/") 27 =? 0 then
    ComandoValvula (atoi_at 27 topic_str) (cstr data_str)
  else match strstr topic_str (lit "temperatura") with
       | Some _ => TemperaturaRecebida (cstr data_str)
       | None => TopicoNaoTratado (cstr topic_str)
       end.

Record handled := {
  topic_str : list ascii;
  data_str : list ascii;
  done : action
}.

(** [junk_t] and [junk_d] are the initial contents of the two stack arrays;
    [topic] and [data] are the bytes readable at the two pointers. *)
Definition processar_mensagem_mqtt (junk_t junk_d : list ascii)
    (topic : list ascii) (topic_len : Z) (data : list ascii) (data_len : Z)
  : option handled :=
  match bounded_copy sizeof_topic_str junk_t topic topic_len with
  | None => None
  | Some t =>
      match bounded_copy sizeof_data_str junk_d data data_len with
      | None => None
      | Some d => Some {| topic_str := t; data_str := d; done := dispatch t d |}
      end
  end.

(** The content of the two arrays after the copies of a whole inbound
    topic and payload (see [processar_inbound]). *)
Definition topic_copy (junk topic : list ascii) : list ascii :=
  let n := Nat.min (length topic) 127 in
  firstn n topic ++ NUL :: skipn (S n) (local_array 128 junk).

Definition data_copy (junk data : list ascii) : list ascii :=
  let n := Nat.min (length data) 255 in
  firstn n data ++ NUL :: skipn (S n) (local_array 256 junk).

End Handler.

(** ** The topic matching the spec describes

    This definition follows the words of the specification ("split both
    pattern and incoming topic on [/]; compare level by level; [+] matches
    any single level; [#] at the final pattern position matches all remaining
    levels, including zero"); it is what the handler's routing is compared
    with. *)

Module SpecRouter.
Import CString.

Definition list_ascii_eqb (a b : list ascii) : bool :=
  if list_eq_dec ascii_dec a b then true else false.

Fixpoint split_levels (s : list ascii) : list (list ascii) :=
  match s with
  | [] => [[]]
  | c :: r =>
      if Ascii.eqb c "/"%char then [] :: split_levels r
      else match split_levels r with
           | l :: ls => (c :: l) :: ls
           | [] => [[c]]
           end
  end.

Fixpoint match_levels (pattern topic : list (list ascii)) : bool :=
  match pattern with
  | [] => match topic with [] => true | _ :: _ => false end
  | p :: ps =>
      if list_ascii_eqb p (lit "#") then
        match ps with [] => true | _ :: _ => false end
      else match topic with
           | [] => false
           | t :: ts =>
               (list_ascii_eqb p (lit "+") || list_ascii_eqb p t)
               && match_levels ps ts
           end
  end.

Definition spec_topic_matches (pattern topic : list ascii) : bool :=
  match_levels (split_levels pattern) (split_levels topic).

(** The inverse of [split_levels]. *)
Fixpoint join_levels (ls : list (list ascii)) : list ascii :=
  match ls with
  | [] => []
  | l :: ls' =>
      match ls' with
      | [] => l
      | _ :: _ => l ++ "/"%char :: join_levels ls'
      end
  end.

End SpecRouter.

(** ** The MQTT service: global state, transport client, publication *)

Module Services.
Import CTypes CString Handler.

(** [mqtt_statistics_t] (mqtt_system.h); every field is a [uint32_t]. *)
Record mqtt_statistics_t := {
  total_publicadas : Z;
  total_recebidas : Z;
  falhas_publicacao : Z;
  desconexoes : Z;
  tempo_desconectado_ms : Z;
  ultima_mensagem_ts : Z
}.

(** Modelled from the spec: the session states of its data model (section
    3); the sources declare no such type. *)
Inductive SessionState := Idle | Connecting | Connected | Disconnected | Faulted.

Definition SessionState_eqb (a b : SessionState) : bool :=
  match a, b with
  | Idle, Idle | Connecting, Connecting | Connected, Connected
  | Disconnected, Disconnected | Faulted, Faulted => true
  | _, _ => false
  end.

(** Events the transport client delivers to [mqtt_event_handler]. *)
Inductive mqtt_event :=
| MQTT_EVENT_CONNECTED
| MQTT_EVENT_DISCONNECTED
| MQTT_EVENT_SUBSCRIBED (msg_id : Z)
| MQTT_EVENT_UNSUBSCRIBED (msg_id : Z)
| MQTT_EVENT_PUBLISHED (msg_id : Z)
| MQTT_EVENT_DATA (topic : list ascii) (topic_len : Z)
                  (data : list ascii) (data_len : Z)
| MQTT_EVENT_ERROR (tcp_transport : bool)
| MQTT_EVENT_OTHER (event_id : Z).

(** What the module does that the outside can see, in program order:
    calls into the transport client and the RTOS, entries into the
    publication function, log lines (by level), handled messages. *)
Inductive obs :=
| esp_mqtt_client_init
| esp_mqtt_client_register_event (client : Z)
| esp_mqtt_client_start (client : Z)
| esp_mqtt_client_subscribe (client : Z) (topic : list ascii) (qos : Z)
| esp_mqtt_client_publish (client : Z) (topic data : list ascii)
                          (len qos retain : Z)
| call_mqtt_publish_data (topic data : list ascii) (len qos : Z) (retain : bool)
| vTaskDelay_ms (ms : Z)
| rand
| esp_random
| ESP_LOG (level : log_level)
| message_handled (r : option handled).

(** The state of the device process.  [mqtt_client] is the global handle
    of mqtt.c (a pointer, [0] for NULL).  [answers] are the values the
    external collaborators (transport client, [rand], [esp_random]) return,
    in the order they are asked; [asked] counts the calls made so far.
    [statistics] is the store behind [mqtt_get_statistics], which
    mqtt_system.h declares.  [session] is described at [session_after]. *)
Record world := {
  mqtt_client : Z;
  session : SessionState;
  statistics : mqtt_statistics_t;
  answers : nat -> Z;
  asked : nat;
  trace : list obs
}.

Definition NULL : Z := 0.
Definition ESP_OK : Z := 0.

(** *** A state monad over [world] *)

Definition M (A : Type) : Type := world -> A * world.

Definition ret {A} (a : A) : M A := fun w => (a, w).

Definition bind {A B} (m : M A) (f : A -> M B) : M B :=
  fun w => let (a, w') := m w in f a w'.

Notation "x <- m ;; k" := (bind m (fun x => k))
  (at level 61, m at next level, right associativity).
Notation "m ;;; k" := (bind m (fun _ => k))
  (at level 61, right associativity).

Definition observe (o : obs) : M unit :=
  fun w => (tt, {| mqtt_client := mqtt_client w; session := session w;
                   statistics := statistics w; answers := answers w;
                   asked := asked w; trace := trace w ++ [o] |}).

(** A call to an external collaborator: it is recorded and answered. *)
Definition extern (o : obs) : M Z :=
  fun w => (answers w (asked w),
            {| mqtt_client := mqtt_client w; session := session w;
               statistics := statistics w; answers := answers w;
               asked := S (asked w); trace := trace w ++ [o] |}).

Definition get_mqtt_client : M Z := fun w => (mqtt_client w, w).

Definition set_mqtt_client (c : Z) : M unit :=
  fun w => (tt, {| mqtt_client := c; session := session w;
                   statistics := statistics w; answers := answers w;
                   asked := asked w; trace := trace w |}).

Definition update_session (f : SessionState -> SessionState) : M unit :=
  fun w => (tt, {| mqtt_client := mqtt_client w; session := f (session w);
                   statistics := statistics w; answers := answers w;
                   asked := asked w; trace := trace w |}).

Definition set_statistics (s : mqtt_statistics_t) : M unit :=
  fun w => (tt, {| mqtt_client := mqtt_client w; session := session w;
                   statistics := s; answers := answers w;
                   asked := asked w; trace := trace w |}).

(** Modelled from the spec: the session state.  The sources keep no
    connection flag (the transport client owns the connection, and
    [mqtt_system_is_connected] is only declared); the state follows the
    specification's data model (section 3) and state machine (section 4.1),
    driven by the transport events the handler receives. *)
Definition session_after (e : mqtt_event) (s : SessionState) : SessionState :=
  match e, s with
  | MQTT_EVENT_CONNECTED, Connecting => Connected
  | MQTT_EVENT_CONNECTED, Disconnected => Connected
  | MQTT_EVENT_ERROR _, Connecting => Faulted
  | MQTT_EVENT_DISCONNECTED, Connected => Disconnected
  | _, _ => s
  end.

(** Modelled from the spec: [mqtt_system_is_connected], declared in
    mqtt_system.h, whose body is not among the sources: "non-blocking read
    of current state equality to Connected". *)
Definition mqtt_system_is_connected : M bool :=
  fun w => (SessionState_eqb (session w) Connected, w).

(** Modelled from the spec: [mqtt_reset_statistics], declared in
    mqtt_system.h ("Zera todos os contadores, exceto desconexoes e tempo
    desconectado"), whose body is not among the sources: it "zeroes
    published_count, received_count, publish_failures, last_message_ts;
    leaves disconnect_count and disconnected_time_ms unchanged". *)
Definition mqtt_reset_statistics : M unit :=
  fun w =>
    set_statistics
      {| total_publicadas := 0;
         total_recebidas := 0;
         falhas_publicacao := 0;
         desconexoes := desconexoes (statistics w);
         tempo_desconectado_ms := tempo_desconectado_ms (statistics w);
         ultima_mensagem_ts := 0 |} w.

(** *** mqtt.c *)

(** [mqtt_event_handler]; [client] is [event->client], [junk_t] and [junk_d]
    the stack content under the handler's two local arrays.  The first line
    is not in the source: it is the transport's own change of state, which
    the event reports (see [session_after]). *)
Definition mqtt_event_handler (junk_t junk_d : list ascii) (client : Z)
    (event : mqtt_event) : M unit :=
  update_session (session_after event) ;;;
  match event with
  | MQTT_EVENT_CONNECTED =>
      observe (ESP_LOG LOG_I) ;;;
      _ <- extern (esp_mqtt_client_subscribe client (lit "jardim/+/temperatura") 0) ;;
      observe (ESP_LOG LOG_I) ;;;
      _ <- extern (esp_mqtt_client_subscribe client (lit "demo/comandos/#") 1) ;;
      observe (ESP_LOG LOG_I)
  | MQTT_EVENT_DISCONNECTED => observe (ESP_LOG LOG_W)
  | MQTT_EVENT_SUBSCRIBED _ => observe (ESP_LOG LOG_I)
  | MQTT_EVENT_UNSUBSCRIBED _ => observe (ESP_LOG LOG_I)
  | MQTT_EVENT_PUBLISHED _ => observe (ESP_LOG LOG_I)
  | MQTT_EVENT_DATA topic topic_len data data_len =>
      observe (ESP_LOG LOG_I) ;;;
      observe (ESP_LOG LOG_I) ;;;
      observe (ESP_LOG LOG_I) ;;;
      observe (message_handled
                 (processar_mensagem_mqtt junk_t junk_d topic topic_len data data_len))
  | MQTT_EVENT_ERROR tcp_transport =>
      observe (ESP_LOG LOG_E) ;;;
      if tcp_transport
      then observe (ESP_LOG LOG_E) ;;; observe (ESP_LOG LOG_E)
      else ret tt
  | MQTT_EVENT_OTHER _ => observe (ESP_LOG LOG_I)
  end.

(** [mqtt_app_start]: the handle of the new client, or NULL.  The line
    [update_session] is not in the source: a client that was started is
    connecting (the spec's "connect_requested"). *)
Definition mqtt_app_start : M Z :=
  c <- extern esp_mqtt_client_init ;;
  let c := to_uint32 c in
  set_mqtt_client c ;;;
  if c =? NULL then
    observe (ESP_LOG LOG_E) ;;; ret NULL
  else
    _ <- extern (esp_mqtt_client_register_event c) ;;
    err <- extern (esp_mqtt_client_start c) ;;
    if negb (to_int err =? ESP_OK) then
      observe (ESP_LOG LOG_E) ;;; ret NULL
    else
      update_session (fun _ => Connecting) ;;;
      observe (ESP_LOG LOG_I) ;;;
      ret c.

(** [mqtt_publish_data]: the message id of the publication, or -1. *)
Definition mqtt_publish_data (topic data : list ascii) (len qos : Z)
    (retain : bool) : M Z :=
  observe (call_mqtt_publish_data topic data len qos retain) ;;;
  c <- get_mqtt_client ;;
  if c =? NULL then
    observe (ESP_LOG LOG_E) ;;; ret (-1)
  else
    let len := if len =? 0 then to_int (strlen data) else len in
    msg_id <- extern (esp_mqtt_client_publish c topic data len qos
                        (if retain then 1 else 0)) ;;
    let msg_id := to_int msg_id in
    if msg_id <? 0 then
      observe (ESP_LOG LOG_E) ;;; ret (-1)
    else
      observe (ESP_LOG LOG_D) ;;; ret msg_id.

(** [snprintf (buf, size, ...)] keeps at most [size - 1] chars. *)
Definition snprintf (size : nat) (s : list ascii) : list ascii :=
  firstn (size - 1) s.

Definition fmt_d (z : Z) : list ascii :=
  lit (NilZero.string_of_int (Z.to_int z)).

(** ["%.2f"] of a [float] that holds [tenths / 10.0] for a small
    non-negative integer [tenths]: the float is within 0.005 of the
    one-decimal value, so two decimals print it followed by a zero. *)
Definition fmt_2f (tenths : Z) : list ascii :=
  fmt_d (tenths / 10) ++ lit "." ++ fmt_d (tenths mod 10) ++ lit "0".

Definition dquote : ascii := ascii_of_nat 34.

Definition json_key (k : string) : list ascii := dquote :: lit k ++ [dquote].

Definition RAND_MAX : Z := 2147483647.

(** One turn of the [while (1)] of [mqtt_publisher_task]; the local
    [contador] goes in and comes out. *)
Definition mqtt_publisher_cycle (contador : Z) : M Z :=
  _ <- mqtt_publish_data (lit "demo/status/central") (lit "ONLINE") 0 1 true ;;
  r <- extern rand ;;
  let temperatura := 200 + (r mod (RAND_MAX + 1)) mod 100 in
  let msg_buffer := snprintf 128 (fmt_2f temperatura) in
  _ <- mqtt_publish_data (lit "jardim/central/temperatura") msg_buffer 0 0 false ;;
  r <- extern rand ;;
  let umidade := 300 + (r mod (RAND_MAX + 1)) mod 500 in
  let msg_buffer := snprintf 128 (fmt_2f umidade) in
  _ <- mqtt_publish_data (lit "jardim/sensor1/umidade") msg_buffer 0 0 false ;;
  let msg_buffer :=
    snprintf 128
      (lit "{" ++ json_key "temp" ++ lit ":" ++ fmt_2f temperatura ++ lit ","
           ++ json_key "umid" ++ lit ":" ++ fmt_2f umidade ++ lit ","
           ++ json_key "cnt" ++ lit ":" ++ fmt_d contador ++ lit "}") in
  _ <- mqtt_publish_data (lit "jardim/central/telemetria") msg_buffer 0 1 false ;;
  observe (vTaskDelay_ms 10000) ;;;
  ret (to_uint32 (contador + 1)).

Fixpoint mqtt_publisher_loop (cycles : nat) (contador : Z) : M Z :=
  match cycles with
  | O => ret contador
  | S n => c <- mqtt_publisher_cycle contador ;; mqtt_publisher_loop n c
  end.

(** [mqtt_publisher_task], cut after [cycles] turns of its endless loop. *)
Definition mqtt_publisher_task (cycles : nat) : M Z :=
  observe (ESP_LOG LOG_I) ;;;
  observe (vTaskDelay_ms 5000) ;;;
  observe (ESP_LOG LOG_I) ;;;
  mqtt_publisher_loop cycles 0.

(** *** Worlds to run the code in *)

Definition zero_statistics : mqtt_statistics_t :=
  {| total_publicadas := 0; total_recebidas := 0; falhas_publicacao := 0;
     desconexoes := 0; tempo_desconectado_ms := 0; ultima_mensagem_ts := 0 |}.

(** The answers of the external collaborators, from a list (0 behind it). *)
Definition answers_of (l : list Z) : nat -> Z := fun n => nth n l 0.

(** The process at boot: no client, nothing counted, nothing done. *)
Definition boot (a : nat -> Z) : world :=
  {| mqtt_client := NULL; session := Idle; statistics := zero_statistics;
     answers := a; asked := 0; trace := [] |}.

(** [w] after the observations [os], nothing else changed. *)
Definition add_trace (os : list obs) (w : world) : world :=
  {| mqtt_client := mqtt_client w; session := session w;
     statistics := statistics w; answers := answers w;
     asked := asked w; trace := trace w ++ os |}.

Definition is_publish_call (o : obs) : bool :=
  match o with call_mqtt_publish_data _ _ _ _ _ => true | _ => false end.

Definition is_transport_publish (o : obs) : bool :=
  match o with esp_mqtt_client_publish _ _ _ _ _ _ => true | _ => false end.

(** Entries into [mqtt_publish_data], and calls of the transport's publish,
    among some observations. *)
Definition publish_calls (os : list obs) : nat :=
  length (filter is_publish_call os).

Definition transport_publishes (os : list obs) : nat :=
  length (filter is_transport_publish os).

(** Two handles, as [esp_mqtt_client_init] may return them. *)
Definition handle_a : Z := 1073610752.
Definition handle_b : Z := 1073614848.

(** The process after [mqtt_app_start] has succeeded from boot: the client
    exists, the transport has not reported a connection yet.  [a] are the
    answers still to come. *)
Definition started (a : list Z) : world :=
  snd (mqtt_app_start (boot (answers_of (handle_a :: 0 :: 0 :: a)))).

(** ... after the transport has then reported the connection (the two
    subscriptions get the message ids 1 and 2) ... *)
Definition connected (a : list Z) : world :=
  snd (mqtt_event_handler [] [] handle_a MQTT_EVENT_CONNECTED
         (started (1 :: 2 :: a))).

(** ... and after it has then reported the loss of the connection. *)
Definition disconnected (a : list Z) : world :=
  snd (mqtt_event_handler [] [] handle_a MQTT_EVENT_DISCONNECTED (connected a)).

(** What a computation adds to the trace of [w]. *)
Definition added {A} (m : M A) (w : world) : list obs :=
  skipn (length (trace w)) (trace (snd (m w))).

End Services.

(** ** The periodic publisher tasks of src/tasks *)

Module Tasks.
Import CTypes CString Handler Services.

Definition SENSOR_SIMULATE_INTERVAL_MS : Z := 1000.

(** One turn of the loop of [custom_publish_task].  The header that defines
    [CUSTOM_PUBLISH_INTERVAL_MS] and [CUSTOM_PUBLISH_TOPIC] is not among the
    sources: both are parameters. *)
Definition custom_publish_cycle (CUSTOM_PUBLISH_INTERVAL_MS : Z)
    (CUSTOM_PUBLISH_TOPIC : list ascii) (publish_count : Z) : M Z :=
  observe (vTaskDelay_ms CUSTOM_PUBLISH_INTERVAL_MS) ;;;
  connected <- mqtt_system_is_connected ;;
  if connected : bool then
    let publish_count := to_uint32 (publish_count + 1) in
    let custom_msg :=
      snprintf 128
        (lit "{" ++ json_key "publish_count" ++ lit ":" ++ fmt_d publish_count
             ++ lit "," ++ json_key "status" ++ lit ":" ++ json_key "operational"
             ++ lit "}") in
    r <- mqtt_publish_data CUSTOM_PUBLISH_TOPIC custom_msg 0 0 false ;;
    (if r =? ESP_OK then observe (ESP_LOG LOG_I) else observe (ESP_LOG LOG_W)) ;;;
    ret publish_count
  else
    observe (ESP_LOG LOG_W) ;;; ret publish_count.

Fixpoint custom_publish_loop (interval : Z) (topic : list ascii)
    (cycles : nat) (publish_count : Z) : M Z :=
  match cycles with
  | O => ret publish_count
  | S n =>
      c <- custom_publish_cycle interval topic publish_count ;;
      custom_publish_loop interval topic n c
  end.

Definition custom_publish_task (interval : Z) (topic : list ascii)
    (cycles : nat) : M Z :=
  observe (ESP_LOG LOG_I) ;;; custom_publish_loop interval topic cycles 0.

(** One turn of the loop of [sensor_simulate_task]. *)
Definition sensor_simulate_cycle : M unit :=
  connected <- mqtt_system_is_connected ;;
  (if connected : bool then
     r <- extern esp_random ;;
     let luminosity := to_int (to_uint32 r mod 11) in
     let buffer := snprintf 16 (fmt_d luminosity) in
     _ <- mqtt_publish_data (lit "/casa/externo/luminosidade") buffer 0 1 false ;;
     r <- extern esp_random ;;
     let temperature := to_int (to_uint32 (to_uint32 r mod 49 - 3)) in
     let buffer := snprintf 16 (fmt_d temperature) in
     _ <- mqtt_publish_data (lit "/casa/sala/temperatura") buffer 0 1 false ;;
     observe (ESP_LOG LOG_I)
   else ret tt) ;;;
  observe (vTaskDelay_ms SENSOR_SIMULATE_INTERVAL_MS).

Fixpoint sensor_simulate_loop (cycles : nat) : M unit :=
  match cycles with
  | O => ret tt
  | S n => sensor_simulate_cycle ;;; sensor_simulate_loop n
  end.

Definition sensor_simulate_task (cycles : nat) : M unit :=
  observe (ESP_LOG LOG_I) ;;; sensor_simulate_loop cycles.

End Tasks.

(** ** Vocabulary for the properties of the handler and of the service *)

Module Reading.
Import CTypes CString Handler Services.

(** [p] occurs in [s]. *)
Definition occurs (p s : list ascii) : Prop :=
  exists pre post, s = pre ++ p ++ post.

(** The three outcomes of the pump branch. *)
Definition is_bomba_action (a : action) : bool :=
  match a with
  | AcionarBomba | DesligarBomba | ComandoDesconhecido _ => true
  | _ => false
  end.

(** Calls into the transport client. *)
Definition is_transport_call (o : obs) : bool :=
  match o with
  | esp_mqtt_client_init
  | esp_mqtt_client_register_event _
  | esp_mqtt_client_start _
  | esp_mqtt_client_subscribe _ _ _
  | esp_mqtt_client_publish _ _ _ _ _ _ => true
  | _ => false
  end.

Definition is_delay (o : obs) : bool :=
  match o with vTaskDelay_ms _ => true | _ => false end.

Definition is_connected_event (e : mqtt_event) : bool :=
  match e with MQTT_EVENT_CONNECTED => true | _ => false end.

(** The events of [events], handed to [mqtt_event_handler] one after the
    other, all for the client [client]. *)
Fixpoint deliver (junk_t junk_d : list ascii) (client : Z)
    (events : list mqtt_event) : M unit :=
  match events with
  | [] => ret tt
  | e :: es =>
      bind (mqtt_event_handler junk_t junk_d client e)
           (fun _ => deliver junk_t junk_d client es)
  end.

(** The two subscriptions of the handler, for the client [client]. *)
Definition subscriptions (client : Z) : list obs :=
  [esp_mqtt_client_subscribe client (lit "jardim/+/temperatura") 0;
   esp_mqtt_client_subscribe client (lit "demo/comandos/#") 1].

(** Waits among some observations. *)
Definition delays (os : list obs) : nat := length (filter is_delay os).

(** [w'] is [w] after the observations [t]: handle, session, statistics
    and the answers to come are those of [w]. *)
Definition effect (w w' : world) (t : list obs) : Prop :=
  trace w' = trace w ++ t
  /\ mqtt_client w' = mqtt_client w
  /\ session w' = session w
  /\ statistics w' = statistics w
  /\ answers w' = answers w.

(** ... and [t] holds [k] entries into [mqtt_publish_data], each of which
    reached the transport if there is a client and none otherwise, and [d]
    waits. *)
Definition run (k d : nat) (w w' : world) (t : list obs) : Prop :=
  effect w w' t
  /\ publish_calls t = k
  /\ transport_publishes t = (if mqtt_client w =? NULL then 0%nat else k)
  /\ delays t = d.

End Reading.

(** ** The entry point, [app_main] (main.c) *)

Module Main.
Import CString Handler.

Inductive task_fn :=
| fn_system_monitor_task
| fn_custom_publish_task
| fn_sensor_simulate_task.

(** What [app_main] does, in program order. *)
Inductive step :=
| call_mqtt_system_init
| xTaskCreate (fn : task_fn) (name : list ascii) (stack_size priority : Z)
| LOG (level : log_level).

(** The macros of tasks/system_monitor_task.h and
    tasks/custom_publish_task.h, which are not among the sources. *)
Record task_macros := {
  MONITOR_TASK_NAME : list ascii;
  MONITOR_TASK_STACK_SIZE : Z;
  MONITOR_TASK_PRIORITY : Z;
  CUSTOM_PUBLISH_TASK_NAME : list ascii;
  CUSTOM_PUBLISH_TASK_STACK_SIZE : Z;
  CUSTOM_PUBLISH_TASK_PRIORITY : Z
}.

(** tasks/sensor_simulate_task.h *)
Definition SENSOR_SIMULATE_TASK_STACK_SIZE : Z := 3072.
Definition SENSOR_SIMULATE_TASK_PRIORITY : Z := 2.
Definition SENSOR_SIMULATE_TASK_NAME : list ascii := lit "SensorSimulate".

Definition pdPASS : Z := 1.
Definition ESP_OK : Z := 0.

Definition logs (level : log_level) (n : nat) : list step := repeat (LOG level) n.

(** [app_main].  [init] is what [mqtt_system_init] returns, [created fn]
    what [xTaskCreate] returns for the task function [fn]. *)
Definition app_main (m : task_macros) (init : Z) (created : task_fn -> Z)
  : list step :=
  logs LOG_I 7 ++ call_mqtt_system_init ::
  if negb (init =? ESP_OK) then [LOG LOG_E]
  else
    logs LOG_I 3 ++
    xTaskCreate fn_system_monitor_task (MONITOR_TASK_NAME m)
      (MONITOR_TASK_STACK_SIZE m) (MONITOR_TASK_PRIORITY m) ::
    if negb (created fn_system_monitor_task =? pdPASS) then [LOG LOG_E]
    else
      LOG LOG_I ::
      xTaskCreate fn_custom_publish_task (CUSTOM_PUBLISH_TASK_NAME m)
        (CUSTOM_PUBLISH_TASK_STACK_SIZE m) (CUSTOM_PUBLISH_TASK_PRIORITY m) ::
      if negb (created fn_custom_publish_task =? pdPASS) then [LOG LOG_E]
      else
        xTaskCreate fn_sensor_simulate_task SENSOR_SIMULATE_TASK_NAME
          SENSOR_SIMULATE_TASK_STACK_SIZE SENSOR_SIMULATE_TASK_PRIORITY ::
        if negb (created fn_sensor_simulate_task =? pdPASS) then [LOG LOG_E]
        else logs LOG_I 21.

(** The task functions handed to [xTaskCreate], in order. *)
Fixpoint tasks_requested (t : list step) : list task_fn :=
  match t with
  | [] => []
  | xTaskCreate fn _ _ _ :: r => fn :: tasks_requested r
  | _ :: r => tasks_requested r
  end.

Definition is_error_log (s : step) : bool :=
  match s with LOG LOG_E => true | _ => false end.

(** The tasks that run when [app_main] has returned: those requested for
    which [xTaskCreate] answered [pdPASS]. *)
Definition tasks_running (created : task_fn -> Z) (t : list step) : list task_fn :=
  filter (fun fn => created fn =? pdPASS) (tasks_requested t).

End Main.

(** * Properties *)

Import CTypes CString Handler SpecRouter Services Tasks.
Import Reading.

(** ** Integer conversions *)

Lemma to_int_id z : in_int z -> to_int z = z.
Proof.
  unfold in_int, INT_MIN, INT_MAX, to_int. intros H.
  rewrite Z.mod_small; lia.
Qed.

Lemma to_size_t_nonneg z : 0 <= z <= UINT_MAX -> to_size_t z = z.
Proof.
  unfold to_size_t, UINT_MAX. intros H. apply Z.mod_small. lia.
Qed.

Lemma to_size_t_neg z : INT_MIN <= z < 0 -> to_size_t z = z + 2 ^ 32.
Proof.
  unfold to_size_t, INT_MIN. intros H.
  rewrite <- (Z.mod_add z 1 (2 ^ 32)) by lia.
  apply Z.mod_small. lia.
Qed.

(** ** The bounded copies of the handler *)

Section BoundedCopy.

Variable size : Z.
Hypothesis size_pos : 1 <= size <= INT_MAX.

(** Whatever [int] the transport reports as a length, also a negative one,
    the number of bytes copied lies between 0 and [size - 1]. *)
Lemma copy_len_range len :
  in_int len -> 0 <= copy_len len size <= size - 1.
Proof.
  unfold in_int, INT_MIN, INT_MAX in *. intros H. unfold copy_len.
  destruct (Z_lt_le_dec len 0) as [Hneg | Hpos].
  - rewrite to_size_t_neg by (unfold INT_MIN; lia).
    destruct (Z.ltb_spec (len + 2 ^ 32) (size - 1)); [lia |].
    rewrite to_int_id by (unfold in_int, INT_MIN, INT_MAX; lia). lia.
  - rewrite to_size_t_nonneg by (unfold UINT_MAX; lia).
    destruct (Z.ltb_spec len (size - 1));
      rewrite to_int_id by (unfold in_int, INT_MIN, INT_MAX; lia); lia.
Qed.

Lemma copy_len_min len :
  0 <= len <= INT_MAX -> copy_len len size = Z.min len (size - 1).
Proof.
  unfold INT_MAX in *. intros H. unfold copy_len.
  rewrite to_size_t_nonneg by (unfold UINT_MAX; lia).
  destruct (Z.ltb_spec len (size - 1));
    rewrite to_int_id by (unfold in_int, INT_MIN, INT_MAX; lia); lia.
Qed.

Lemma local_array_length junk :
  length (local_array (Z.to_nat size) junk) = Z.to_nat size.
Proof.
  unfold local_array. rewrite firstn_length_le; [reflexivity |].
  rewrite length_app, repeat_length. lia.
Qed.

(** The copy of a whole inbound field: no access leaves the array, and the
    array then holds the first [size - 1] bytes at most, a NUL, and what the
    stack held behind. *)
Lemma bounded_copy_inbound junk src :
  Z.of_nat (length src) <= INT_MAX ->
  let n := Nat.min (length src) (Z.to_nat (size - 1)) in
  bounded_copy size junk src (Z.of_nat (length src))
  = Some (firstn n src ++ NUL :: skipn (S n) (local_array (Z.to_nat size) junk)).
Proof.
  intros Hlen n. unfold bounded_copy.
  rewrite copy_len_min by lia.
  assert (Hn : Z.min (Z.of_nat (length src)) (size - 1) = Z.of_nat n)
    by (unfold n; lia).
  rewrite Hn.
  rewrite to_size_t_nonneg by (unfold UINT_MAX, INT_MAX in *; lia).
  unfold memcpy. rewrite local_array_length.
  assert (Hc : (Z.of_nat n <=? Z.of_nat (Z.to_nat size)) = true)
    by (apply Z.leb_le; unfold n; lia).
  assert (Hs : (Z.of_nat n <=? Z.of_nat (length src)) = true)
    by (apply Z.leb_le; unfold n; lia).
  assert (H0 : (0 <=? Z.of_nat n) = true) by (apply Z.leb_le; lia).
  rewrite Hc, Hs, H0. cbn [andb].
  rewrite Nat2Z.id.
  set (buf := local_array (Z.to_nat size) junk).
  assert (Hbuf : length buf = Z.to_nat size) by apply local_array_length.
  assert (Hf : length (firstn n src) = n)
    by (apply firstn_length_le; unfold n; lia).
  unfold store.
  rewrite length_app, Hf, length_skipn, Hbuf.
  assert (Hi : ((0 <=? Z.of_nat n)
                && (Z.of_nat n <? Z.of_nat (n + (Z.to_nat size - n))))%bool = true).
  { apply andb_true_iff. split; [apply Z.leb_le; lia |].
    apply Z.ltb_lt. unfold n. lia. }
  rewrite Hi, Nat2Z.id. f_equal.
  rewrite firstn_app, Hf, Nat.sub_diag, firstn_O, app_nil_r.
  rewrite firstn_all2 by lia.
  f_equal. f_equal.
  rewrite skipn_app, Hf.
  rewrite (skipn_all2 (firstn n src)) by lia.
  cbn [app]. replace (S n - n)%nat with 1%nat by lia.
  rewrite skipn_skipn. f_equal; lia.
Qed.

End BoundedCopy.

(** ** C strings: what the libc routines decide *)

Lemma uchar_inj c1 c2 : uchar c1 = uchar c2 -> c1 = c2.
Proof.
  unfold uchar. intros H. apply N2Z.inj in H.
  rewrite <- (ascii_N_embedding c1), <- (ascii_N_embedding c2).
  now rewrite H.
Qed.

Lemma uchar_diff c1 c2 : Ascii.eqb c1 c2 = false -> uchar c1 - uchar c2 <> 0.
Proof.
  intros Hne Hz. apply Ascii.eqb_neq in Hne. apply Hne, uchar_inj. lia.
Qed.

Lemma is_nul_true c : is_nul c = true <-> c = NUL.
Proof. apply Ascii.eqb_eq. Qed.

Lemma is_nul_false c : is_nul c = false <-> c <> NUL.
Proof. apply Ascii.eqb_neq. Qed.

(** A region either starts with the terminator (or is empty), or starts
    with a proper char. *)
Lemma cstr_cases s :
  (hd NUL s = NUL /\ cstr s = [])
  \/ (exists c r, s = c :: r /\ is_nul c = false /\ cstr s = c :: cstr r).
Proof.
  destruct s as [| c r]; [left; split; reflexivity |].
  cbn. destruct (is_nul c) eqn:E.
  - left. apply is_nul_true in E. split; [assumption | reflexivity].
  - right. exists c, r. repeat split. assumption.
Qed.

Lemma cstr_nul_free s : Forall (fun c => c <> NUL) s -> cstr s = s.
Proof.
  induction 1 as [| c r Hc _ IH]; [reflexivity |].
  cbn. apply is_nul_false in Hc. rewrite Hc, IH. reflexivity.
Qed.

Lemma cstr_terminated a b :
  Forall (fun c => c <> NUL) a -> cstr (a ++ NUL :: b) = a.
Proof.
  induction 1 as [| c r Hc _ IH]; [reflexivity |].
  cbn. apply is_nul_false in Hc. rewrite Hc. f_equal. exact IH.
Qed.

Lemma cstr_length_le s : (length (cstr s) <= length s)%nat.
Proof.
  induction s as [| c r IH]; [apply Nat.le_refl |].
  cbn. destruct (is_nul c); cbn; lia.
Qed.

Lemma strncmp_zero_iff n : forall s1 s2,
  strncmp s1 s2 n = 0 <-> firstn n (cstr s1) = firstn n (cstr s2).
Proof.
  induction n as [| n IH]; intros s1 s2.
  - cbn. tauto.
  - cbn [strncmp].
    destruct (cstr_cases s1) as [[H1 E1] | (c1 & r1 & -> & N1 & E1)];
    destruct (cstr_cases s2) as [[H2 E2] | (c2 & r2 & -> & N2 & E2)];
      rewrite E1, E2.
    + rewrite H1, H2. cbn. tauto.
    + rewrite H1. cbn [hd].
      assert (Hne : Ascii.eqb NUL c2 = false).
      { apply Ascii.eqb_neq. intros <-. discriminate N2. }
      rewrite Hne. cbn [negb]. split; [| discriminate].
      intros Hz. exfalso. exact (uchar_diff _ _ Hne Hz).
    + rewrite H2. cbn [hd].
      assert (Hne : Ascii.eqb c1 NUL = false) by exact N1.
      rewrite Hne. cbn [negb]. split; [| discriminate].
      intros Hz. exfalso. exact (uchar_diff _ _ Hne Hz).
    + cbn [hd tl firstn]. destruct (Ascii.eqb c1 c2) eqn:E.
      * apply Ascii.eqb_eq in E. subst c2. cbn [negb]. rewrite N1.
        rewrite IH. split; [intros ->; reflexivity | intros H; now injection H].
      * cbn [negb]. split.
        -- intros Hz. exfalso. exact (uchar_diff _ _ E Hz).
        -- intros H. injection H as Hc _. apply Ascii.eqb_neq in E. contradiction.
Qed.

Lemma strcmp_zero_iff : forall s1 s2,
  strcmp s1 s2 = 0 <-> cstr s1 = cstr s2.
Proof.
  induction s1 as [| c1 r1 IH]; intros s2.
  - cbn [strcmp cstr].
    destruct (cstr_cases s2) as [[H2 E2] | (c2 & r2 & -> & N2 & E2)]; rewrite E2.
    + rewrite H2. cbn. tauto.
    + cbn [hd]. split; [| discriminate].
      intros Hz. exfalso. apply is_nul_false in N2. apply N2.
      apply uchar_inj. unfold uchar at 2. cbn. lia.
  - cbn [strcmp cstr].
    destruct (cstr_cases s2) as [[H2 E2] | (c2 & r2 & -> & N2 & E2)]; rewrite E2.
    + rewrite H2. destruct (is_nul c1) eqn:N1.
      * apply is_nul_true in N1. subst c1. cbn. tauto.
      * assert (Hne : Ascii.eqb c1 NUL = false) by exact N1.
        rewrite Hne. cbn [negb]. split; [| discriminate].
        intros Hz. exfalso. exact (uchar_diff _ _ Hne Hz).
    + cbn [hd tl]. destruct (Ascii.eqb c1 c2) eqn:E.
      * apply Ascii.eqb_eq in E. subst c2. cbn [negb]. rewrite N2.
        rewrite IH. split; [intros ->; reflexivity | intros H; now injection H].
      * cbn [negb]. split.
        -- intros Hz. exfalso. exact (uchar_diff _ _ E Hz).
        -- destruct (is_nul c1); [discriminate |].
           intros H. injection H as Hc _. apply Ascii.eqb_neq in E. contradiction.
Qed.

Lemma firstn_short {A} n (l : list A) :
  (length (firstn n l) < n)%nat -> firstn n l = l.
Proof.
  intros H. rewrite length_firstn in H. apply firstn_all2. lia.
Qed.

(** Compared over more chars than the literal has, [strncmp] is zero for
    the literal alone: the literal's terminator takes part. *)
Lemma strncmp_literal n s p :
  Forall (fun c => c <> NUL) p -> (length p < n)%nat ->
  strncmp s p n = 0 <-> cstr s = p.
Proof.
  intros Hp Hn. rewrite strncmp_zero_iff, (cstr_nul_free p Hp).
  rewrite (firstn_all2 p) by lia. split.
  - intros H. rewrite <- H. symmetry. apply firstn_short. rewrite H. exact Hn.
  - intros ->. apply firstn_all2. lia.
Qed.

Lemma starts_with_app p rest : starts_with (p ++ rest) p = true.
Proof.
  induction p as [| c p IH]; [reflexivity |].
  cbn. destruct (is_nul c); [reflexivity |].
  rewrite Ascii.eqb_refl. exact IH.
Qed.

Lemma strstr_here hay p : starts_with hay p = true -> strstr hay p = Some O.
Proof.
  intros H. destruct hay; cbn [strstr]; rewrite H; reflexivity.
Qed.

Lemma strstr_found pre p rest :
  Forall (fun c => c <> NUL) pre -> strstr (pre ++ p ++ rest) p <> None.
Proof.
  induction 1 as [| c r Hc _ IH].
  - cbn [app]. rewrite strstr_here by apply starts_with_app. discriminate.
  - cbn [app strstr].
    destruct (starts_with (c :: r ++ p ++ rest) p); [discriminate |].
    apply is_nul_false in Hc. rewrite Hc.
    destruct (strstr (r ++ p ++ rest) p); [discriminate | contradiction].
Qed.

(** ** The handler on a whole inbound message *)

Lemma processar_inbound junk_t junk_d topic data :
  Z.of_nat (length topic) <= INT_MAX ->
  Z.of_nat (length data) <= INT_MAX ->
  processar_mensagem_mqtt junk_t junk_d
    topic (Z.of_nat (length topic)) data (Z.of_nat (length data))
  = Some {| topic_str := topic_copy junk_t topic;
            data_str := data_copy junk_d data;
            done := dispatch (topic_copy junk_t topic) (data_copy junk_d data) |}.
Proof.
  intros Ht Hd. unfold processar_mensagem_mqtt.
  rewrite (bounded_copy_inbound sizeof_topic_str) by
    (assumption || (unfold sizeof_topic_str, INT_MAX; lia)).
  rewrite (bounded_copy_inbound sizeof_data_str) by
    (assumption || (unfold sizeof_data_str, INT_MAX; lia)).
  reflexivity.
Qed.

Lemma copy_shape n size (src junk : list ascii) :
  (n <= length src)%nat -> (n < size)%nat ->
  let buf := firstn n src ++ NUL :: skipn (S n) (local_array size junk) in
  length buf = size /\ firstn n buf = firstn n src /\ nth_error buf n = Some NUL.
Proof.
  intros Hs Hn buf.
  assert (Hf : length (firstn n src) = n) by (apply firstn_length_le; lia).
  assert (Hl : length (local_array size junk) = size).
  { unfold local_array. apply firstn_length_le.
    rewrite length_app, repeat_length. lia. }
  unfold buf. repeat split.
  - rewrite length_app, Hf. cbn [length]. rewrite length_skipn, Hl. lia.
  - rewrite firstn_app, Hf, Nat.sub_diag, firstn_O, app_nil_r.
    apply firstn_all2. lia.
  - rewrite nth_error_app2 by lia. rewrite Hf, Nat.sub_diag. reflexivity.
Qed.

(** C5. For every inbound topic and payload, of any lengths, the handler
    runs without an access outside its two arrays; it copies
    min (topic length, 127) bytes of the topic and min (payload length, 255)
    bytes of the payload, never more than 127 and 255, and writes the
    terminator right behind each copy, inside the 128- and 256-byte arrays. *)
Theorem processar_copies_bounded (junk_t junk_d topic data : list ascii) :
  Z.of_nat (length topic) <= INT_MAX ->
  Z.of_nat (length data) <= INT_MAX ->
  let tn := Nat.min (length topic) 127 in
  let dn := Nat.min (length data) 255 in
  exists r,
    processar_mensagem_mqtt junk_t junk_d
      topic (Z.of_nat (length topic)) data (Z.of_nat (length data)) = Some r
    /\ copy_len (Z.of_nat (length topic)) sizeof_topic_str = Z.of_nat tn
    /\ copy_len (Z.of_nat (length data)) sizeof_data_str = Z.of_nat dn
    /\ (tn <= 127)%nat /\ (dn <= 255)%nat
    /\ length (topic_str r) = 128%nat
    /\ firstn tn (topic_str r) = firstn tn topic
    /\ nth_error (topic_str r) tn = Some NUL
    /\ length (data_str r) = 256%nat
    /\ firstn dn (data_str r) = firstn dn data
    /\ nth_error (data_str r) dn = Some NUL
    /\ strlen (topic_str r) <= 127 /\ strlen (data_str r) <= 255.
Proof.
  intros Ht Hd tn dn. eexists. split; [apply processar_inbound; assumption |].
  cbn [topic_str data_str].
  destruct (copy_shape tn 128 topic junk_t) as (L1 & F1 & N1); [unfold tn; lia .. |].
  destruct (copy_shape dn 256 data junk_d) as (L2 & F2 & N2); [unfold dn; lia .. |].
  assert (Hcut : forall n (a b : list ascii),
             (length a <= n)%nat -> strlen (a ++ NUL :: b) <= Z.of_nat n).
  { intros n a b Ha. unfold strlen.
    assert (length (cstr (a ++ NUL :: b)) <= length a)%nat; [| lia].
    clear Ha. induction a as [| c a IH]; cbn; [lia |].
    destruct (is_nul c); cbn; lia. }
  repeat split.
  - rewrite (copy_len_min sizeof_topic_str) by (unfold sizeof_topic_str, INT_MAX in *; lia).
    unfold tn, sizeof_topic_str. lia.
  - rewrite (copy_len_min sizeof_data_str) by (unfold sizeof_data_str, INT_MAX in *; lia).
    unfold dn, sizeof_data_str. lia.
  - unfold tn. lia.
  - unfold dn. lia.
  - exact L1.
  - exact F1.
  - exact N1.
  - exact L2.
  - exact F2.
  - exact N2.
  - apply (Hcut 127%nat). rewrite length_firstn. lia.
  - apply (Hcut 255%nat). rewrite length_firstn. lia.
Qed.

Lemma processar_copies_bounded_witness :
  exists r,
    processar_mensagem_mqtt [] [] (repeat "a"%char 300) 300 (repeat "b"%char 300) 300
    = Some r
    /\ length (topic_str r) = 128%nat /\ nth_error (topic_str r) 127 = Some NUL
    /\ length (data_str r) = 256%nat /\ nth_error (data_str r) 255 = Some NUL.
Proof.
  destruct (processar_copies_bounded [] [] (repeat "a"%char 300) (repeat "b"%char 300))
    as (r & Hr & _ & _ & _ & _ & L1 & _ & N1 & L2 & _ & N2 & _).
  - vm_compute. discriminate.
  - vm_compute. discriminate.
  - exists r. repeat split; assumption.
Defined.

(** ** The branches of the handler *)

Lemma nul_free_firstn n s : nul_free s -> nul_free (firstn n s).
Proof.
  unfold nul_free. intros H. revert n.
  induction H as [| c r Hc _ IH]; intros [| n]; cbn; constructor; auto.
Qed.

Lemma nul_free_app a b : nul_free (a ++ b) -> nul_free a /\ nul_free b.
Proof. unfold nul_free. apply Forall_app. Qed.

Lemma topic_copy_cstr junk topic :
  nul_free topic -> cstr (topic_copy junk topic) = firstn 127 topic.
Proof.
  intros H. unfold topic_copy. rewrite cstr_terminated by now apply nul_free_firstn.
  destruct (Nat.le_gt_cases (length topic) 127) as [Hle | Hgt].
  - rewrite Nat.min_l by assumption. now rewrite !firstn_all2 by lia.
  - rewrite Nat.min_r by lia. reflexivity.
Qed.

Lemma data_copy_cstr junk data :
  nul_free data -> cstr (data_copy junk data) = firstn 255 data.
Proof.
  intros H. unfold data_copy. rewrite cstr_terminated by now apply nul_free_firstn.
  destruct (Nat.le_gt_cases (length data) 255) as [Hle | Hgt].
  - rewrite Nat.min_l by assumption. now rewrite !firstn_all2 by lia.
  - rewrite Nat.min_r by lia. reflexivity.
Qed.

Ltac literal_nul_free :=
  unfold nul_free; repeat constructor; discriminate.

(** The pump branch is entered for the topic [demo/comandos/bomba] alone. *)
Lemma bomba_branch_iff t :
  strncmp t (lit "demo/comandos/bomba") 24 = 0 <-> cstr t = lit "demo/comandos/bomba".
Proof. apply strncmp_literal; [literal_nul_free | cbn; lia]. Qed.

(** The valve branch is entered for the bare prefix alone. *)
Lemma valvula_branch_iff t :
  strncmp t (lit "demo/comandos/valvula/") 27 = 0
  <-> cstr t = lit "demo/comandos/valvula/".
Proof. apply strncmp_literal; [literal_nul_free | cbn; lia]. Qed.

Lemma eqb_zero_false z : z <> 0 -> (z =? 0) = false.
Proof. apply Z.eqb_neq. Qed.

(** The payload comparison of the pump branch. *)
Lemma dispatch_bomba t d :
  cstr t = lit "demo/comandos/bomba" ->
  dispatch t d =
    if list_ascii_eqb (cstr d) (lit "LIGAR") then AcionarBomba
    else if list_ascii_eqb (cstr d) (lit "DESLIGAR") then DesligarBomba
    else ComandoDesconhecido (cstr d).
Proof.
  intros Ht. unfold dispatch.
  apply bomba_branch_iff in Ht. rewrite Ht. cbn [Z.eqb].
  unfold list_ascii_eqb.
  destruct (list_eq_dec ascii_dec (cstr d) (lit "LIGAR")) as [E | E].
  - assert (H : strcmp d (lit "LIGAR") = 0) by (apply strcmp_zero_iff; rewrite E; reflexivity).
    rewrite H. reflexivity.
  - assert (H : strcmp d (lit "LIGAR") <> 0)
      by (intros H; apply strcmp_zero_iff in H; apply E; rewrite H; reflexivity).
    rewrite (eqb_zero_false _ H).
    destruct (list_eq_dec ascii_dec (cstr d) (lit "DESLIGAR")) as [E' | E'].
    + assert (H' : strcmp d (lit "DESLIGAR") = 0)
        by (apply strcmp_zero_iff; rewrite E'; reflexivity).
      rewrite H'. reflexivity.
    + assert (H' : strcmp d (lit "DESLIGAR") <> 0)
        by (intros H'; apply strcmp_zero_iff in H'; apply E'; rewrite H'; reflexivity).
      rewrite (eqb_zero_false _ H'). reflexivity.
Qed.

Lemma firstn_eq_short {A} n (l p : list A) :
  (length p < n)%nat -> firstn n l = p <-> l = p.
Proof.
  intros Hp. split.
  - intros H. rewrite <- H. symmetry. apply firstn_short. rewrite H. exact Hp.
  - intros ->. apply firstn_all2. lia.
Qed.

(** C9. A topic that strictly extends [demo/comandos/valvula/], such as
    [demo/comandos/valvula/3]: [strncmp] over 27 chars reaches the terminator
    of the 22-char literal and is not zero, the valve branch is not taken,
    and the message ends in the temperature branch or in the "unhandled"
    one. *)
Theorem valvula_branch_not_taken (junk_t junk_d ext data : list ascii) :
  ext <> [] ->
  nul_free ext ->
  Z.of_nat (length (lit "demo/comandos/valvula/" ++ ext)) <= INT_MAX ->
  Z.of_nat (length data) <= INT_MAX ->
  let topic := lit "demo/comandos/valvula/" ++ ext in
  exists r,
    processar_mensagem_mqtt junk_t junk_d
      topic (Z.of_nat (length topic)) data (Z.of_nat (length data)) = Some r
    /\ strncmp (topic_str r) (lit "demo/comandos/valvula/") 27 <> 0
    /\ (forall n c, done r <> ComandoValvula n c)
    /\ (done r = TemperaturaRecebida (cstr (data_str r))
        \/ done r = TopicoNaoTratado (firstn 127 topic)).
Proof.
  intros Hext Hnf Ht Hd topic. eexists. split.
  - apply processar_inbound; assumption.
  - cbn [topic_str data_str done].
    assert (Htopic : nul_free topic).
    { unfold topic, nul_free. apply Forall_app. split; [literal_nul_free | exact Hnf]. }
    assert (Hc : cstr (topic_copy junk_t topic) = firstn 127 topic)
      by now apply topic_copy_cstr.
    assert (Hlen : (23 <= length (firstn 127 topic))%nat).
    { rewrite length_firstn. unfold topic. rewrite length_app.
      destruct ext; [contradiction | cbn; lia]. }
    assert (Hv : strncmp (topic_copy junk_t topic) (lit "demo/comandos/valvula/") 27 <> 0).
    { intros H. apply valvula_branch_iff in H. rewrite Hc in H.
      rewrite H in Hlen. cbn in Hlen. lia. }
    assert (Hb : strncmp (topic_copy junk_t topic) (lit "demo/comandos/bomba") 24 <> 0).
    { intros H. apply bomba_branch_iff in H. rewrite Hc in H.
      rewrite H in Hlen. cbn in Hlen. lia. }
    split; [exact Hv |].
    unfold dispatch. rewrite (eqb_zero_false _ Hb), (eqb_zero_false _ Hv), Hc.
    destruct (strstr (topic_copy junk_t topic) (lit "temperatura")).
    + split; [discriminate | left; reflexivity].
    + split; [discriminate | right; reflexivity].
Qed.

Lemma valvula_branch_not_taken_witness :
  exists r,
    processar_mensagem_mqtt [] [] (lit "demo/comandos/valvula/3") 23 (lit "ABRIR") 5
    = Some r
    /\ strncmp (topic_str r) (lit "demo/comandos/valvula/") 27 <> 0
    /\ (forall n c, done r <> ComandoValvula n c).
Proof.
  destruct (valvula_branch_not_taken [] [] (lit "3") (lit "ABRIR"))
    as (r & Hr & Hs & Hn & _).
  - discriminate.
  - literal_nul_free.
  - vm_compute. discriminate.
  - vm_compute. discriminate.
  - exists r. repeat split; assumption.
Defined.

(** The valve branch is reachable with the bare prefix only; the valve
    number is then read at offset 27, behind the terminator at offset 22,
    from what the stack held. *)
Example valvula_bare_prefix_reads_stack :
  option_map done
    (processar_mensagem_mqtt (repeat "x"%char 27 ++ lit "42") []
       (lit "demo/comandos/valvula/") 22 (lit "ABRIR") 5)
  = Some (ComandoValvula (Some 42) (lit "ABRIR")).
Proof. vm_compute. reflexivity. Qed.

(** ... and when the stack held digits to the end of the array, [atoi]
    does not stop inside it. *)
Example valvula_bare_prefix_reads_on :
  option_map done
    (processar_mensagem_mqtt (repeat "7"%char 128) []
       (lit "demo/comandos/valvula/") 22 (lit "ABRIR") 5)
  = Some (ComandoValvula None (lit "ABRIR")).
Proof. vm_compute. reflexivity. Qed.

(** ** Routing by topic: the handler against the spec's matcher *)

(** The matcher written after the spec does what the spec's examples say. *)
Lemma spec_matcher_examples :
  spec_topic_matches (lit "a/+/c") (lit "a/b/c") = true
  /\ spec_topic_matches (lit "a/+/c") (lit "a/b/d/c") = false
  /\ spec_topic_matches (lit "a/#") (lit "a") = true
  /\ spec_topic_matches (lit "a/#") (lit "a/b") = true
  /\ spec_topic_matches (lit "a/#") (lit "a/b/c") = true.
Proof. repeat split; vm_compute; reflexivity. Qed.

Lemma split_levels_cons s : exists l ls, split_levels s = l :: ls.
Proof.
  induction s as [| c r (l & ls & IH)]; cbn.
  - now exists [], [].
  - destruct (Ascii.eqb c "/"); [now exists [], (split_levels r) |].
    rewrite IH. now exists (c :: l), ls.
Qed.

Lemma join_split s : join_levels (split_levels s) = s.
Proof.
  induction s as [| c r IH]; [reflexivity |].
  cbn [split_levels].
  destruct (split_levels_cons r) as (l & ls & E). rewrite E in *.
  destruct (Ascii.eqb_spec c "/") as [-> | _].
  - change (join_levels ([] :: l :: ls))
      with ([] ++ "/"%char :: join_levels (l :: ls)).
    rewrite IH. reflexivity.
  - destruct ls as [| l' ls].
    + cbn in *. now rewrite IH.
    + change (join_levels ((c :: l) :: l' :: ls))
        with (c :: (l ++ "/"%char :: join_levels (l' :: ls))).
      change (join_levels (l :: l' :: ls))
        with (l ++ "/"%char :: join_levels (l' :: ls)) in IH.
      now rewrite IH.
Qed.

Lemma list_ascii_eqb_true a b : list_ascii_eqb a b = true -> a = b.
Proof.
  unfold list_ascii_eqb. now destruct (list_eq_dec ascii_dec a b).
Qed.

(** A topic that matches [jardim/+/temperatura] level by level is
    [jardim/], one level, [/temperatura]. *)
Lemma temperatura_pattern_inv topic :
  spec_topic_matches (lit "jardim/+/temperatura") topic = true ->
  exists level, topic = lit "jardim/" ++ level ++ lit "/temperatura".
Proof.
  unfold spec_topic_matches. intros H.
  change (split_levels (lit "jardim/+/temperatura"))
    with [lit "jardim"; lit "+"; lit "temperatura"] in H.
  rewrite <- (join_split topic).
  destruct (split_levels topic) as [| t1 [| t2 [| t3 [| t4 ts]]]];
    cbn [match_levels] in H;
    change (list_ascii_eqb (lit "jardim") (lit "#")) with false in H;
    change (list_ascii_eqb (lit "jardim") (lit "+")) with false in H;
    change (list_ascii_eqb (lit "+") (lit "#")) with false in H;
    change (list_ascii_eqb (lit "+") (lit "+")) with true in H;
    change (list_ascii_eqb (lit "temperatura") (lit "#")) with false in H;
    change (list_ascii_eqb (lit "temperatura") (lit "+")) with false in H;
    cbn [orb andb] in H; try discriminate H.
  - destruct (list_ascii_eqb (lit "jardim") t1); discriminate H.
  - destruct (list_ascii_eqb (lit "jardim") t1); discriminate H.
  - destruct (list_ascii_eqb (lit "jardim") t1) eqn:E1; [| discriminate H].
    destruct (list_ascii_eqb (lit "temperatura") t3) eqn:E3; [| discriminate H].
    apply list_ascii_eqb_true in E1, E3. subst t1 t3.
    exists t2. reflexivity.
  - destruct (list_ascii_eqb (lit "jardim") t1); [| discriminate H].
    destruct (list_ascii_eqb (lit "temperatura") t3); discriminate H.
Qed.

(** The handler's routing is not the level-by-level matching: the temperature
    branch takes a topic that has two levels where the subscription
    [jardim/+/temperatura] has [+], and a topic under [demo/comandos/#] other
    than the pump's is left unhandled. *)
Lemma routing_ignores_levels :
  spec_topic_matches (lit "jardim/+/temperatura") (lit "jardim/b/d/temperatura") = false
  /\ option_map done
       (processar_mensagem_mqtt [] [] (lit "jardim/b/d/temperatura") 22 (lit "21.5") 4)
     = Some (TemperaturaRecebida (lit "21.5"))
  /\ spec_topic_matches (lit "demo/comandos/#") (lit "demo/comandos/luz") = true
  /\ option_map done
       (processar_mensagem_mqtt [] [] (lit "demo/comandos/luz") 17 (lit "LIGAR") 5)
     = Some (TopicoNaoTratado (lit "demo/comandos/luz")).
Proof. repeat split; vm_compute; reflexivity. Qed.

Lemma topic_copy_whole junk topic :
  (length topic <= 127)%nat ->
  exists rest, topic_copy junk topic = topic ++ NUL :: rest.
Proof.
  intros H. unfold topic_copy. rewrite Nat.min_l by assumption.
  rewrite firstn_all. eexists. reflexivity.
Qed.

(** ** The statistics store *)

(** C4. Whatever the statistics hold, [mqtt_reset_statistics] leaves the
    published, received and failure counters and the last-message timestamp
    at zero, and the disconnection counter and the disconnected time as they
    were. *)
Theorem reset_statistics_frame (w : world) :
  let s := statistics w in
  let s' := statistics (snd (mqtt_reset_statistics w)) in
  total_publicadas s' = 0
  /\ total_recebidas s' = 0
  /\ falhas_publicacao s' = 0
  /\ ultima_mensagem_ts s' = 0
  /\ desconexoes s' = desconexoes s
  /\ tempo_desconectado_ms s' = tempo_desconectado_ms s
  /\ added mqtt_reset_statistics w = [].
Proof.
  cbn. repeat split.
  unfold added. cbn. apply skipn_all.
Qed.

(** ** Publication *)

(** [mqtt_publish_data] in full: what it returns and what it leaves. *)
Lemma mqtt_publish_data_eq topic data len qos retain w :
  mqtt_publish_data topic data len qos retain w =
  if mqtt_client w =? NULL then
    (-1, add_trace [call_mqtt_publish_data topic data len qos retain; ESP_LOG LOG_E] w)
  else
    let sent := esp_mqtt_client_publish (mqtt_client w) topic data
                  (if len =? 0 then to_int (strlen data) else len) qos
                  (if retain then 1 else 0) in
    let msg_id := to_int (answers w (asked w)) in
    let w' := {| mqtt_client := mqtt_client w; session := session w;
                 statistics := statistics w; answers := answers w;
                 asked := S (asked w);
                 trace := trace w ++ [call_mqtt_publish_data topic data len qos retain;
                                      sent;
                                      ESP_LOG (if msg_id <? 0 then LOG_E else LOG_D)] |} in
    (if msg_id <? 0 then -1 else msg_id, w').
Proof.
  destruct w as [c se st an k tr].
  unfold mqtt_publish_data, bind, observe, get_mqtt_client, extern, ret, add_trace.
  cbn [mqtt_client session statistics answers asked trace].
  destruct (c =? NULL); cbv zeta;
    cbn [mqtt_client session statistics answers asked trace].
  - rewrite <- !app_assoc. reflexivity.
  - destruct (to_int (an k) <? 0);
      cbn [mqtt_client session statistics answers asked trace];
      rewrite <- !app_assoc; reflexivity.
Qed.

(** No path of [mqtt_publish_data] writes the statistics, the handle or
    the session. *)
Lemma mqtt_publish_data_frame topic data len qos retain w :
  let w' := snd (mqtt_publish_data topic data len qos retain w) in
  statistics w' = statistics w /\ mqtt_client w' = mqtt_client w
  /\ session w' = session w /\ answers w' = answers w.
Proof.
  rewrite mqtt_publish_data_eq.
  destruct (mqtt_client w =? NULL); cbn; repeat split.
Qed.

(** Without a client ([mqtt_client] is NULL) the call fails and the
    transport is not reached. *)
Lemma publish_without_client topic data len qos retain w :
  mqtt_client w = NULL ->
  mqtt_publish_data topic data len qos retain w
  = (-1, add_trace [call_mqtt_publish_data topic data len qos retain; ESP_LOG LOG_E] w).
Proof.
  intros H. rewrite mqtt_publish_data_eq, H. reflexivity.
Qed.

(** C10. With a client, a call with length argument 0 hands the transport
    the payload with [strlen (payload)] as its length, the payload untouched,
    and a call with any other length argument hands it that length. *)
Theorem publish_length (topic data : list ascii) (len qos : Z) (retain : bool)
    (w : world) :
  mqtt_client w <> NULL ->
  strlen data <= INT_MAX ->
  exists level,
    trace (snd (mqtt_publish_data topic data len qos retain w))
    = trace w ++
      [call_mqtt_publish_data topic data len qos retain;
       esp_mqtt_client_publish (mqtt_client w) topic data
         (if len =? 0 then strlen data else len) qos (if retain then 1 else 0);
       ESP_LOG level].
Proof.
  intros Hc Hlen. rewrite mqtt_publish_data_eq. unfold NULL in *.
  rewrite (eqb_zero_false _ Hc). cbv zeta. cbn [snd trace].
  rewrite (to_int_id (strlen data)).
  - eexists. reflexivity.
  - unfold in_int, INT_MIN, strlen in *. lia.
Qed.

Lemma publish_length_witness :
  exists level,
    trace (snd (mqtt_publish_data (lit "demo/status/central") (lit "ONLINE") 0 1 true
                  (connected [7])))
    = trace (connected [7]) ++
      [call_mqtt_publish_data (lit "demo/status/central") (lit "ONLINE") 0 1 true;
       esp_mqtt_client_publish handle_a (lit "demo/status/central") (lit "ONLINE") 6 1 1;
       ESP_LOG level].
Proof.
  apply (publish_length (lit "demo/status/central") (lit "ONLINE") 0 1 true
           (connected [7])).
  - vm_compute. discriminate.
  - vm_compute. discriminate.
Defined.

(** C1, on the code.  The process has started its client and the transport
    has not reported a connection (or has reported its loss):
    [mqtt_system_is_connected] is false, the handle is not NULL, and
    [mqtt_publish_data] calls the transport's publish and returns the
    message id the transport gives, not an error. *)
Theorem publish_while_not_connected :
  fst (mqtt_system_is_connected (started [7])) = false
  /\ added (mqtt_publish_data (lit "demo/status/central") (lit "ONLINE") 0 1 true)
       (started [7])
     = [call_mqtt_publish_data (lit "demo/status/central") (lit "ONLINE") 0 1 true;
        esp_mqtt_client_publish handle_a (lit "demo/status/central") (lit "ONLINE") 6 1 1;
        ESP_LOG LOG_D]
  /\ fst (mqtt_publish_data (lit "demo/status/central") (lit "ONLINE") 0 1 true
            (started [7])) = 7
  /\ fst (mqtt_system_is_connected (disconnected [7])) = false
  /\ transport_publishes
       (added (mqtt_publish_data (lit "demo/status/central") (lit "ONLINE") 0 1 true)
          (disconnected [7])) = 1%nat
  /\ fst (mqtt_publish_data (lit "demo/status/central") (lit "ONLINE") 0 1 true
            (disconnected [7])) = 7.
Proof. repeat split; vm_compute; reflexivity. Qed.

(** Connected, a publication the transport accepts (message id 7) and one
    it refuses (-1): the statistics are the same before and after each;
    neither [total_publicadas] nor [falhas_publicacao] moves,
    [ultima_mensagem_ts] is not written. *)
Lemma publish_counts_nothing :
  fst (mqtt_system_is_connected (connected [7; -1])) = true
  /\ fst (mqtt_publish_data (lit "t") (lit "x") 0 0 false (connected [7; -1])) = 7
  /\ statistics (snd (mqtt_publish_data (lit "t") (lit "x") 0 0 false (connected [7; -1])))
     = statistics (connected [7; -1])
  /\ total_publicadas
       (statistics (snd (mqtt_publish_data (lit "t") (lit "x") 0 0 false
                           (connected [7; -1])))) = 0
  /\ fst (mqtt_publish_data (lit "t") (lit "x") 0 0 false
            (snd (mqtt_publish_data (lit "t") (lit "x") 0 0 false (connected [7; -1]))))
     = -1
  /\ falhas_publicacao
       (statistics
          (snd (mqtt_publish_data (lit "t") (lit "x") 0 0 false
                  (snd (mqtt_publish_data (lit "t") (lit "x") 0 0 false
                          (connected [7; -1])))))) = 0.
Proof. repeat split; vm_compute; reflexivity. Qed.

(** ** Starting the client *)

(** C8, as the code has it.  [mqtt_app_start] looks at neither the handle
    nor the session it finds: it always creates a client and stores its
    handle in [mqtt_client]; it returns that handle when the client was
    created and started, and NULL when the creation or the start failed. *)
Theorem mqtt_app_start_unguarded (w : world) :
  let h := to_uint32 (answers w (asked w)) in
  let err := to_int (answers w (S (S (asked w)))) in
  fst (mqtt_app_start w)
  = (if h =? NULL then NULL else if err =? ESP_OK then h else NULL)
  /\ mqtt_client (snd (mqtt_app_start w)) = h
  /\ hd_error (added mqtt_app_start w) = Some esp_mqtt_client_init.
Proof.
  destruct w as [c se st an k tr].
  unfold added, mqtt_app_start, bind, extern, set_mqtt_client, observe,
    update_session, ret.
  cbn [mqtt_client session statistics answers asked trace].
  destruct (to_uint32 (an k) =? NULL);
    cbn [mqtt_client session statistics answers asked trace].
  - cbn [fst snd mqtt_client trace]. repeat split.
    rewrite <- app_assoc, skipn_app, Nat.sub_diag, skipn_all. reflexivity.
  - destruct (to_int (an (S (S k))) =? ESP_OK);
      cbn [negb fst snd mqtt_client session statistics answers asked trace];
      repeat split;
      rewrite <- !app_assoc, skipn_app, Nat.sub_diag, skipn_all; reflexivity.
Qed.

(** Called with a session already connected, or still connecting,
    [mqtt_app_start] does not fail: it creates a second client and returns
    its handle. *)
Lemma second_start_succeeds :
  session (connected [handle_b; 0; 0]) = Connected
  /\ mqtt_client (connected [handle_b; 0; 0]) = handle_a
  /\ fst (mqtt_app_start (connected [handle_b; 0; 0])) = handle_b
  /\ mqtt_client (snd (mqtt_app_start (connected [handle_b; 0; 0]))) = handle_b
  /\ session (started [handle_b; 0; 0]) = Connecting
  /\ fst (mqtt_app_start (started [handle_b; 0; 0])) = handle_b
  /\ handle_b <> NULL.
Proof. repeat split; vm_compute; (reflexivity || discriminate). Qed.

(** ** The periodic publishers *)

Lemma publish_calls_app a b :
  publish_calls (a ++ b) = (publish_calls a + publish_calls b)%nat.
Proof. unfold publish_calls. now rewrite filter_app, length_app. Qed.

Lemma added_app {A} (m : M A) w t :
  trace (snd (m w)) = trace w ++ t -> added m w = t.
Proof.
  intros H. unfold added. rewrite H, skipn_app, Nat.sub_diag, skipn_all.
  reflexivity.
Qed.

(** Every call of [mqtt_publish_data] enters the function once, and adds
    nothing else that counts as an entry. *)
Lemma publish_step topic data len qos retain w :
  exists t,
    trace (snd (mqtt_publish_data topic data len qos retain w)) = trace w ++ t
    /\ publish_calls t = 1%nat.
Proof.
  rewrite mqtt_publish_data_eq.
  destruct (mqtt_client w =? NULL); cbv zeta; cbn [snd trace add_trace];
    eexists; split; reflexivity.
Qed.

Ltac publish_next w' t H C :=
  match goal with
  | |- context [mqtt_publish_data ?a ?b ?c ?d ?e ?w] =>
      destruct (publish_step a b c d e w) as (t & H & C);
      destruct (mqtt_publish_data a b c d e w) as [? w'];
      cbn [snd] in H;
      cbn [extern observe ret mqtt_client session statistics answers asked trace]
  end.

(** [mqtt_publisher_task] asks nobody whether the session is connected:
    each turn of its loop enters [mqtt_publish_data] four times. *)
Lemma mqtt_publisher_cycle_calls contador w :
  exists t,
    trace (snd (mqtt_publisher_cycle contador w)) = trace w ++ t
    /\ publish_calls t = 4%nat.
Proof.
  unfold mqtt_publisher_cycle, bind.
  publish_next w1 t1 H1 C1.
  publish_next w2 t2 H2 C2.
  publish_next w3 t3 H3 C3.
  publish_next w4 t4 H4 C4.
  cbn [snd trace]. rewrite H4, H3. cbn [trace]. rewrite H2. cbn [trace]. rewrite H1.
  rewrite <- !app_assoc. eexists. split; [reflexivity |].
  rewrite !publish_calls_app, C1, C2, C3, C4. reflexivity.
Qed.

(** A turn of [custom_publish_task] without a connection: the wait and one
    warning. *)
Lemma custom_publish_cycle_offline interval topic count w :
  fst (mqtt_system_is_connected w) = false ->
  custom_publish_cycle interval topic count w
  = (count, add_trace [vTaskDelay_ms interval; ESP_LOG LOG_W] w).
Proof.
  intros Hc. destruct w as [c se st an k tr]. cbn in Hc.
  unfold custom_publish_cycle, bind, observe, mqtt_system_is_connected, ret, add_trace.
  cbn [mqtt_client session statistics answers asked trace].
  rewrite Hc. cbn [mqtt_client session statistics answers asked trace].
  rewrite <- app_assoc. reflexivity.
Qed.

(** A turn of [sensor_simulate_task] without a connection: the wait. *)
Lemma sensor_simulate_cycle_offline w :
  fst (mqtt_system_is_connected w) = false ->
  sensor_simulate_cycle w
  = (tt, add_trace [vTaskDelay_ms SENSOR_SIMULATE_INTERVAL_MS] w).
Proof.
  intros Hc. destruct w as [c se st an k tr]. cbn in Hc.
  unfold sensor_simulate_cycle, bind, observe, mqtt_system_is_connected, ret, add_trace.
  cbn [mqtt_client session statistics answers asked trace].
  rewrite Hc. reflexivity.
Qed.

Lemma add_trace_add_trace a b w : add_trace b (add_trace a w) = add_trace (a ++ b) w.
Proof. unfold add_trace. cbn. now rewrite app_assoc. Qed.

Lemma add_trace_nil w : add_trace [] w = w.
Proof. destruct w. unfold add_trace. cbn. now rewrite app_nil_r. Qed.

(** As long as nothing connects the session, the turns of
    [custom_publish_task] add up to waits and warnings: nothing was kept
    from a skipped turn to be sent in a later one. *)
Lemma custom_publish_loop_offline interval topic cycles : forall count w,
  fst (mqtt_system_is_connected w) = false ->
  custom_publish_loop interval topic cycles count w
  = (count,
     add_trace (concat (repeat [vTaskDelay_ms interval; ESP_LOG LOG_W] cycles)) w).
Proof.
  induction cycles as [| n IH]; intros count w Hc.
  - cbn. now rewrite add_trace_nil.
  - cbn [custom_publish_loop repeat concat]. unfold bind.
    rewrite custom_publish_cycle_offline by assumption.
    rewrite IH by exact Hc. now rewrite add_trace_add_trace.
Qed.

Lemma sensor_simulate_loop_offline cycles : forall w,
  fst (mqtt_system_is_connected w) = false ->
  sensor_simulate_loop cycles w
  = (tt,
     add_trace (concat (repeat [vTaskDelay_ms SENSOR_SIMULATE_INTERVAL_MS] cycles)) w).
Proof.
  induction cycles as [| n IH]; intros w Hc.
  - cbn. now rewrite add_trace_nil.
  - cbn [sensor_simulate_loop repeat concat]. unfold bind.
    rewrite sensor_simulate_cycle_offline by assumption.
    rewrite IH by exact Hc. now rewrite add_trace_add_trace.
Qed.

(** C3, as the code has it.  In a turn of the loop of [custom_publish_task]
    and of [sensor_simulate_task] at which [mqtt_system_is_connected] is
    false, the task waits for its interval and does nothing else but log: it
    does not enter [mqtt_publish_data], keeps nothing for later, and asks the
    transport for nothing.  [mqtt_publisher_task] does not check: each turn
    of its loop enters [mqtt_publish_data] four times. *)
Theorem disconnected_cycle_skips (interval : Z) (topic : list ascii)
    (count : Z) (w : world) :
  fst (mqtt_system_is_connected w) = false ->
  custom_publish_cycle interval topic count w
  = (count, add_trace [vTaskDelay_ms interval; ESP_LOG LOG_W] w)
  /\ sensor_simulate_cycle w
     = (tt, add_trace [vTaskDelay_ms SENSOR_SIMULATE_INTERVAL_MS] w)
  /\ publish_calls (added (custom_publish_cycle interval topic count) w) = 0%nat
  /\ publish_calls (added sensor_simulate_cycle w) = 0%nat
  /\ publish_calls (added (mqtt_publisher_cycle count) w) = 4%nat.
Proof.
  intros Hc.
  pose proof (custom_publish_cycle_offline interval topic count w Hc) as E1.
  pose proof (sensor_simulate_cycle_offline w Hc) as E2.
  repeat split; try assumption.
  - rewrite (added_app _ w [vTaskDelay_ms interval; ESP_LOG LOG_W]);
      [reflexivity | rewrite E1; reflexivity].
  - rewrite (added_app _ w [vTaskDelay_ms SENSOR_SIMULATE_INTERVAL_MS]);
      [reflexivity | rewrite E2; reflexivity].
  - destruct (mqtt_publisher_cycle_calls count w) as (t & Ht & Hn).
    rewrite (added_app _ w t Ht). exact Hn.
Qed.

Lemma disconnected_cycle_skips_witness :
  custom_publish_cycle 5000 (lit "demo/central/custom") 3 (disconnected [])
  = (3, add_trace [vTaskDelay_ms 5000; ESP_LOG LOG_W] (disconnected []))
  /\ sensor_simulate_cycle (disconnected [])
     = (tt, add_trace [vTaskDelay_ms 1000] (disconnected [])).
Proof.
  destruct (disconnected_cycle_skips 5000 (lit "demo/central/custom") 3 (disconnected []))
    as (H1 & H2 & _).
  - vm_compute. reflexivity.
  - split; assumption.
Defined.

(** A turn of the loop of [mqtt_publisher_task] at which the session is not
    connected: [mqtt_publish_data] is entered four times, and the
    transport's publish is called four times. *)
Lemma publisher_cycle_ignores_connection :
  fst (mqtt_system_is_connected (disconnected [1; 5; 2; 7; 3; 4])) = false
  /\ publish_calls (added (mqtt_publisher_cycle 0) (disconnected [1; 5; 2; 7; 3; 4]))
     = 4%nat
  /\ transport_publishes (added (mqtt_publisher_cycle 0) (disconnected [1; 5; 2; 7; 3; 4]))
     = 4%nat.
Proof. repeat split; vm_compute; reflexivity. Qed.

Example publisher_cycle_payloads :
  filter is_transport_publish
    (added (mqtt_publisher_cycle 41) (connected [1; 5; 2; 7; 3; 4]))
  = [esp_mqtt_client_publish handle_a (lit "demo/status/central") (lit "ONLINE") 6 1 1;
     esp_mqtt_client_publish handle_a (lit "jardim/central/temperatura") (lit "20.50") 5 0 0;
     esp_mqtt_client_publish handle_a (lit "jardim/sensor1/umidade") (lit "30.70") 5 0 0;
     esp_mqtt_client_publish handle_a (lit "jardim/central/telemetria")
       (lit "{" ++ json_key "temp" ++ lit ":20.50," ++ json_key "umid" ++ lit ":30.70,"
            ++ json_key "cnt" ++ lit ":41}") 36 1 0].
Proof. vm_compute. reflexivity. Qed.

(** * Further properties of the code *)

(** ** The handler: which messages reach which branch *)

Lemma starts_with_prefix p : forall s,
  nul_free p -> starts_with s p = true -> exists post, s = p ++ post.
Proof.
  induction p as [| c p IH]; intros s Hp H.
  - now exists s.
  - inversion Hp as [| ? ? Hc Hp']; subst.
    cbn [starts_with] in H. apply is_nul_false in Hc. rewrite Hc in H.
    destruct s as [| d s]; [discriminate H |].
    apply andb_true_iff in H as [Hd Hs].
    apply Ascii.eqb_eq in Hd. subst d.
    destruct (IH s Hp' Hs) as (post & ->). now exists post.
Qed.

(** What [strstr] finds is an occurrence, behind chars that are no NUL. *)
Lemma strstr_sound p : forall hay k,
  nul_free p -> strstr hay p = Some k ->
  exists pre post, hay = pre ++ p ++ post /\ nul_free pre.
Proof.
  induction hay as [| c r IH]; intros k Hp H; cbn [strstr] in H.
  - destruct (starts_with [] p) eqn:E; [| discriminate H].
    destruct (starts_with_prefix p [] Hp E) as (post & Hpost).
    exists [], post. split; [exact Hpost | constructor].
  - destruct (starts_with (c :: r) p) eqn:E.
    + destruct (starts_with_prefix p (c :: r) Hp E) as (post & Hpost).
      exists [], post. split; [exact Hpost | constructor].
    + destruct (is_nul c) eqn:Hc; [discriminate H |].
      destruct (strstr r p) as [k' |] eqn:S; [| discriminate H].
      destruct (IH k' Hp eq_refl) as (pre & post & -> & Hpre).
      exists (c :: pre), post. split; [reflexivity |].
      constructor; [now apply is_nul_false | exact Hpre].
Qed.

(** Text at the start of a terminated region lies before the terminator. *)
Lemma text_before_terminator a : forall x t rest,
  nul_free a -> a ++ x = t ++ NUL :: rest -> exists y, t = a ++ y.
Proof.
  induction a as [| c a IH]; intros x t rest Ha H.
  - now exists t.
  - inversion Ha as [| ? ? Hc Ha']; subst.
    destruct t as [| d t]; cbn in H.
    + injection H as Hd _. contradiction.
    + injection H as Hd Ht. subst d.
      destruct (IH x t rest Ha' Ht) as (y & ->). now exists y.
Qed.

Lemma nul_free_app_intro a b : nul_free a -> nul_free b -> nul_free (a ++ b).
Proof. unfold nul_free. intros Ha Hb. apply Forall_app. now split. Qed.

(** In the working copy of a whole text topic, [strstr] finds [p] exactly
    when [p] occurs in the topic. *)
Lemma strstr_topic_copy junk topic p :
  nul_free topic -> (length topic <= 127)%nat -> nul_free p ->
  strstr (topic_copy junk topic) p <> None <-> occurs p topic.
Proof.
  intros Ht Hlen Hp.
  destruct (topic_copy_whole junk topic Hlen) as (rest & ->). split.
  - destruct (strstr (topic ++ NUL :: rest) p) as [k |] eqn:S; [| contradiction].
    intros _. destruct (strstr_sound p _ k Hp S) as (pre & post & E & Hpre).
    rewrite app_assoc in E. symmetry in E.
    destruct (text_before_terminator (pre ++ p) post topic rest
                (nul_free_app_intro _ _ Hpre Hp) E) as (y & Hy).
    exists pre, y. now rewrite Hy, <- app_assoc.
  - intros (pre & post & E). rewrite E, <- !app_assoc.
    apply strstr_found. rewrite E in Ht. now apply nul_free_app in Ht.
Qed.

Lemma topic_copy_cstr_eq junk topic p :
  nul_free topic -> (length p < 127)%nat ->
  cstr (topic_copy junk topic) = p <-> topic = p.
Proof.
  intros Ht Hp. rewrite topic_copy_cstr by assumption.
  now apply firstn_eq_short.
Qed.

Lemma dispatch_not_bomba t d :
  cstr t <> lit "demo/comandos/bomba" ->
  is_bomba_action (dispatch t d) = false.
Proof.
  intros H. unfold dispatch.
  rewrite eqb_zero_false by (intros E; now apply bomba_branch_iff in E).
  destruct (strncmp t (lit "demo/comandos/valvula/") 27 =? 0); [reflexivity |].
  destruct (strstr t (lit "temperatura")); reflexivity.
Qed.

Lemma dispatch_is_bomba t d :
  cstr t = lit "demo/comandos/bomba" ->
  is_bomba_action (dispatch t d) = true.
Proof.
  intros H. rewrite dispatch_bomba by assumption.
  destruct (list_ascii_eqb (cstr d) (lit "LIGAR")); [reflexivity |].
  destruct (list_ascii_eqb (cstr d) (lit "DESLIGAR")); reflexivity.
Qed.

(** X1. The pump is addressed by its topic alone: for a text topic of any
    length and any payload, the handler ends in one of the three outcomes of
    the pump branch exactly when the topic is [demo/comandos/bomba]; no
    longer, shorter or otherwise different topic reaches the pump. *)
Theorem bomba_only_by_its_topic (junk_t junk_d topic data : list ascii) :
  nul_free topic ->
  Z.of_nat (length topic) <= INT_MAX ->
  Z.of_nat (length data) <= INT_MAX ->
  exists r,
    processar_mensagem_mqtt junk_t junk_d
      topic (Z.of_nat (length topic)) data (Z.of_nat (length data)) = Some r
    /\ (is_bomba_action (done r) = true <-> topic = lit "demo/comandos/bomba").
Proof.
  intros Hnf Ht Hd. eexists. split; [now apply processar_inbound |].
  cbn [done].
  assert (Hiff := topic_copy_cstr_eq junk_t topic (lit "demo/comandos/bomba") Hnf).
  split.
  - intros H. apply Hiff; [cbn; lia |].
    destruct (list_eq_dec ascii_dec (cstr (topic_copy junk_t topic))
                (lit "demo/comandos/bomba")) as [E | E]; [exact E |].
    rewrite (dispatch_not_bomba _ _ E) in H. discriminate H.
  - intros H. apply dispatch_is_bomba. apply Hiff; [cbn; lia | exact H].
Qed.

Lemma bomba_only_by_its_topic_witness :
  exists r,
    processar_mensagem_mqtt [] [] (lit "demo/comandos/bomba/1") 21 (lit "LIGAR") 5
    = Some r
    /\ is_bomba_action (done r) = false.
Proof.
  destruct (bomba_only_by_its_topic [] [] (lit "demo/comandos/bomba/1") (lit "LIGAR"))
    as (r & Hr & Hiff).
  - literal_nul_free.
  - vm_compute. discriminate.
  - vm_compute. discriminate.
  - exists r. split; [exact Hr |].
    destruct (is_bomba_action (done r)); [| reflexivity].
    destruct Hiff as [H _]. specialize (H eq_refl). discriminate H.
Defined.

Lemma dispatch_valvula t d :
  cstr t = lit "demo/comandos/valvula/" ->
  dispatch t d = ComandoValvula (atoi_at 27 t) (cstr d).
Proof.
  intros H. unfold dispatch.
  rewrite eqb_zero_false
    by (intros E; apply bomba_branch_iff in E; rewrite H in E; discriminate E).
  apply valvula_branch_iff in H. rewrite H. reflexivity.
Qed.

Lemma dispatch_not_valvula t d n c :
  cstr t <> lit "demo/comandos/valvula/" ->
  dispatch t d <> ComandoValvula n c.
Proof.
  intros H. unfold dispatch.
  destruct (strncmp t (lit "demo/comandos/bomba") 24 =? 0).
  - destruct (strcmp d (lit "LIGAR") =? 0); [discriminate |].
    destruct (strcmp d (lit "DESLIGAR") =? 0); discriminate.
  - rewrite eqb_zero_false by (intros E; now apply valvula_branch_iff in E).
    destruct (strstr t (lit "temperatura")); discriminate.
Qed.

Lemma skipn_behind_copy n k (p arr : list ascii) :
  length (firstn n p) = n -> (S n <= k)%nat ->
  skipn k (firstn n p ++ NUL :: skipn (S n) arr) = skipn k arr.
Proof.
  intros Hp Hk. rewrite skipn_app, Hp.
  rewrite (skipn_all2 (firstn n p)) by lia. cbn [app].
  replace (k - n)%nat with (S (k - S n)) by lia.
  rewrite skipn_cons, skipn_skipn. f_equal. lia.
Qed.

(** X2. The valve branch is reached by the bare topic
    [demo/comandos/valvula/] and by no other text topic, and the valve number
    it logs is read at offset 27 of the topic array, behind the terminator at
    offset 22, so never from the topic.  When the cells 27 to 127 hold a char
    at which [atoi] stops, the number is [atoi] of what the stack held there,
    whatever the message; when they hold blanks, a sign and digits to the
    last cell, [atoi] reads on behind the array and the array does not
    determine the number. *)
Theorem valvula_number_from_stack (junk_t junk_d topic data : list ascii) :
  nul_free topic ->
  Z.of_nat (length topic) <= INT_MAX ->
  Z.of_nat (length data) <= INT_MAX ->
  exists r,
    processar_mensagem_mqtt junk_t junk_d
      topic (Z.of_nat (length topic)) data (Z.of_nat (length data)) = Some r
    /\ (topic = lit "demo/comandos/valvula/" ->
        done r = ComandoValvula (atoi_at 27 (local_array 128 junk_t))
                   (cstr (data_str r)))
    /\ (forall n c, done r = ComandoValvula n c ->
        topic = lit "demo/comandos/valvula/")
    /\ (atoi_rest (skipn 27 (local_array 128 junk_t)) <> [] ->
        atoi_at 27 (local_array 128 junk_t)
        = Some (atoi (skipn 27 (local_array 128 junk_t))))
    /\ (atoi_rest (skipn 27 (local_array 128 junk_t)) = [] ->
        atoi_at 27 (local_array 128 junk_t) = None).
Proof.
  intros Hnf Ht Hd. eexists. split; [now apply processar_inbound |].
  cbn [done data_str]. split; [| split; [| split]].
  - intros ->. rewrite dispatch_valvula
      by (rewrite topic_copy_cstr by literal_nul_free; reflexivity).
    f_equal. unfold atoi_at, topic_copy.
    change (Nat.min (length (lit "demo/comandos/valvula/")) 127) with 22%nat.
    rewrite skipn_behind_copy; [reflexivity | reflexivity | lia].
  - intros n c H.
    destruct (list_eq_dec ascii_dec (cstr (topic_copy junk_t topic))
                (lit "demo/comandos/valvula/")) as [E | E].
    + apply (topic_copy_cstr_eq junk_t topic) in E; [exact E | exact Hnf | cbn; lia].
    + exfalso. exact (dispatch_not_valvula _ _ n c E H).
  - unfold atoi_at. intros H.
    destruct (atoi_rest (skipn 27 (local_array 128 junk_t)));
      [contradiction | reflexivity].
  - unfold atoi_at. now intros ->.
Qed.

Lemma valvula_number_from_stack_witness :
  exists r,
    processar_mensagem_mqtt (repeat "x"%char 27 ++ lit "42") []
      (lit "demo/comandos/valvula/") 22 (lit "ABRIR") 5 = Some r
    /\ done r = ComandoValvula (Some 42) (lit "ABRIR").
Proof.
  destruct (valvula_number_from_stack (repeat "x"%char 27 ++ lit "42") []
              (lit "demo/comandos/valvula/") (lit "ABRIR")) as (r & Hr & Hv & _).
  - literal_nul_free.
  - vm_compute. discriminate.
  - vm_compute. discriminate.
  - exists r. split; [exact Hr |].
    rewrite (Hv eq_refl). f_equal.
    injection Hr as <-. vm_compute. reflexivity.
Defined.

(** X3. For a text topic of at most 127 bytes that is neither the pump's
    topic nor the bare valve prefix, the handler decides by a search: the
    message is taken as a temperature exactly when [temperatura] occurs
    somewhere in the topic, and is otherwise logged as unhandled, with the
    whole topic. *)
Theorem temperatura_iff_occurs (junk_t junk_d topic data : list ascii) :
  nul_free topic ->
  (length topic <= 127)%nat ->
  Z.of_nat (length data) <= INT_MAX ->
  topic <> lit "demo/comandos/bomba" ->
  topic <> lit "demo/comandos/valvula/" ->
  exists r,
    processar_mensagem_mqtt junk_t junk_d
      topic (Z.of_nat (length topic)) data (Z.of_nat (length data)) = Some r
    /\ (occurs (lit "temperatura") topic ->
        done r = TemperaturaRecebida (cstr (data_str r)))
    /\ (~ occurs (lit "temperatura") topic ->
        done r = TopicoNaoTratado topic).
Proof.
  intros Hnf Hlen Hd Hb Hv. eexists. split.
  - apply processar_inbound; [unfold INT_MAX; lia | assumption].
  - cbn [done data_str].
    assert (Hc : cstr (topic_copy junk_t topic) = topic).
    { rewrite topic_copy_cstr by assumption. now apply firstn_all2. }
    assert (Hs := strstr_topic_copy junk_t topic (lit "temperatura") Hnf Hlen).
    unfold dispatch.
    rewrite eqb_zero_false
      by (intros H; apply bomba_branch_iff in H; rewrite Hc in H; contradiction).
    rewrite eqb_zero_false
      by (intros H; apply valvula_branch_iff in H; rewrite Hc in H; contradiction).
    rewrite Hc.
    destruct (strstr (topic_copy junk_t topic) (lit "temperatura")) eqn:S; split.
    + reflexivity.
    + intros Hn. exfalso. apply Hn, Hs; [literal_nul_free | discriminate].
    + intros Ho. exfalso. apply Hs in Ho; [contradiction | literal_nul_free].
    + reflexivity.
Qed.

Lemma temperatura_iff_occurs_witness :
  exists r,
    processar_mensagem_mqtt [] [] (lit "jardim/central/umidade") 22 (lit "40") 2 = Some r
    /\ done r = TopicoNaoTratado (lit "jardim/central/umidade").
Proof.
  destruct (temperatura_iff_occurs [] [] (lit "jardim/central/umidade") (lit "40"))
    as (r & Hr & _ & Hn).
  - literal_nul_free.
  - cbn. lia.
  - vm_compute. discriminate.
  - discriminate.
  - discriminate.
  - exists r. split; [exact Hr |]. apply Hn.
    intros Ho.
    apply (strstr_topic_copy [] (lit "jardim/central/umidade") (lit "temperatura")) in Ho;
      [| literal_nul_free | cbn; lia | literal_nul_free].
    apply Ho. vm_compute. reflexivity.
Defined.

(** ** The handler: what of a message it reads *)

Lemma strcmp_eqb_cstr d d' l :
  cstr d = cstr d' -> (strcmp d l =? 0) = (strcmp d' l =? 0).
Proof.
  intros H.
  destruct (Z.eqb_spec (strcmp d l) 0) as [E | E];
  destruct (Z.eqb_spec (strcmp d' l) 0) as [E' | E']; try reflexivity; exfalso.
  - apply E'. apply strcmp_zero_iff. rewrite <- H. now apply strcmp_zero_iff.
  - apply E. apply strcmp_zero_iff. rewrite H. now apply strcmp_zero_iff.
Qed.

(** The [if] chain reads the payload copy as a C string. *)
Lemma dispatch_data_cstr t d d' :
  cstr d = cstr d' -> dispatch t d = dispatch t d'.
Proof.
  intros H. unfold dispatch.
  rewrite (strcmp_eqb_cstr d d' (lit "LIGAR") H),
          (strcmp_eqb_cstr d d' (lit "DESLIGAR") H), H.
  reflexivity.
Qed.

Lemma data_copy_cstr_cut junk a b :
  nul_free a -> cstr (data_copy junk (a ++ NUL :: b)) = firstn 255 a.
Proof.
  intros Ha. unfold data_copy.
  set (n := Nat.min (length (a ++ NUL :: b)) 255).
  assert (Hn : n = Nat.min (length a + S (length b)) 255)
    by (unfold n; now rewrite length_app).
  rewrite firstn_app.
  destruct (Nat.le_gt_cases 255 (length a)) as [Hge | Hlt].
  - replace n with 255%nat by lia.
    replace (255 - length a)%nat with 0%nat by lia.
    rewrite firstn_O, app_nil_r.
    apply cstr_terminated. now apply nul_free_firstn.
  - rewrite (firstn_all2 a) by lia.
    replace (n - length a)%nat with (S (n - S (length a))) by lia.
    rewrite firstn_cons, <- app_assoc. cbn [app].
    rewrite cstr_terminated by assumption.
    symmetry. apply firstn_all2. lia.
Qed.

(** X4. A payload is read up to its first NUL byte: the handler does with
    the payload [a], a NUL and any further bytes what it does with the text
    [a] alone.  So [LIGAR] followed by a NUL and anything switches the pump
    on. *)
Theorem payload_read_to_first_nul (junk_t junk_d topic a b : list ascii) :
  nul_free a ->
  Z.of_nat (length topic) <= INT_MAX ->
  Z.of_nat (length (a ++ NUL :: b)) <= INT_MAX ->
  exists r r',
    processar_mensagem_mqtt junk_t junk_d topic (Z.of_nat (length topic))
      (a ++ NUL :: b) (Z.of_nat (length (a ++ NUL :: b))) = Some r
    /\ processar_mensagem_mqtt junk_t junk_d topic (Z.of_nat (length topic))
         a (Z.of_nat (length a)) = Some r'
    /\ done r = done r'.
Proof.
  intros Ha Ht Hd.
  assert (Hd' : Z.of_nat (length a) <= INT_MAX)
    by (rewrite length_app in Hd; lia).
  eexists. eexists. split; [now apply processar_inbound |].
  split; [now apply processar_inbound |].
  cbn [done]. apply dispatch_data_cstr.
  rewrite data_copy_cstr_cut, data_copy_cstr by assumption. reflexivity.
Qed.

Lemma payload_read_to_first_nul_witness :
  exists r,
    processar_mensagem_mqtt [] [] (lit "demo/comandos/bomba") 19
      (lit "LIGAR" ++ NUL :: lit "x") 7 = Some r
    /\ done r = AcionarBomba.
Proof.
  destruct (payload_read_to_first_nul [] [] (lit "demo/comandos/bomba")
              (lit "LIGAR") (lit "x")) as (r & r' & Hr & Hr' & E).
  - literal_nul_free.
  - vm_compute. discriminate.
  - vm_compute. discriminate.
  - exists r. split; [exact Hr |]. rewrite E.
    injection Hr' as <-. vm_compute. reflexivity.
Defined.

Lemma topic_copy_firstn junk topic :
  topic_copy junk (firstn 127 topic) = topic_copy junk topic.
Proof.
  unfold topic_copy. rewrite length_firstn, firstn_firstn.
  replace (Nat.min (Nat.min 127 (length topic)) 127)
    with (Nat.min (length topic) 127) by lia.
  replace (Nat.min (Nat.min (length topic) 127) 127)
    with (Nat.min (length topic) 127) by lia.
  reflexivity.
Qed.

Lemma data_copy_firstn junk data :
  data_copy junk (firstn 255 data) = data_copy junk data.
Proof.
  unfold data_copy. rewrite length_firstn, firstn_firstn.
  replace (Nat.min (Nat.min 255 (length data)) 255)
    with (Nat.min (length data) 255) by lia.
  replace (Nat.min (Nat.min (length data) 255) 255)
    with (Nat.min (length data) 255) by lia.
  reflexivity.
Qed.

(** X5. The handler sees the first 127 bytes of a topic and the first 255
    bytes of a payload and nothing behind them: a message and the message cut
    to these lengths leave the same two arrays and take the same branch. *)
Theorem processar_sees_truncated (junk_t junk_d topic data : list ascii) :
  Z.of_nat (length topic) <= INT_MAX ->
  Z.of_nat (length data) <= INT_MAX ->
  processar_mensagem_mqtt junk_t junk_d
    topic (Z.of_nat (length topic)) data (Z.of_nat (length data))
  = processar_mensagem_mqtt junk_t junk_d
      (firstn 127 topic) (Z.of_nat (length (firstn 127 topic)))
      (firstn 255 data) (Z.of_nat (length (firstn 255 data))).
Proof.
  intros Ht Hd.
  rewrite (processar_inbound junk_t junk_d topic data) by assumption.
  rewrite (processar_inbound junk_t junk_d (firstn 127 topic) (firstn 255 data))
    by (rewrite length_firstn; lia).
  now rewrite topic_copy_firstn, data_copy_firstn.
Qed.

Lemma processar_sees_truncated_witness :
  processar_mensagem_mqtt [] []
    (lit "demo/comandos/bomba" ++ repeat "/"%char 200) 219 (lit "LIGAR") 5
  = processar_mensagem_mqtt [] []
      (lit "demo/comandos/bomba" ++ repeat "/"%char 108) 127 (lit "LIGAR") 5.
Proof.
  apply (processar_sees_truncated [] []
           (lit "demo/comandos/bomba" ++ repeat "/"%char 200) (lit "LIGAR")).
  - vm_compute. discriminate.
  - vm_compute. discriminate.
Defined.

Lemma copy_len_negative len size :
  1 <= size <= INT_MAX -> INT_MIN <= len < 0 -> copy_len len size = size - 1.
Proof.
  unfold INT_MAX, INT_MIN. intros Hs Hl. unfold copy_len.
  rewrite to_size_t_neg by (unfold INT_MIN; lia).
  destruct (Z.ltb_spec (len + 2 ^ 32) (size - 1)); [lia |].
  apply to_int_id. unfold in_int, INT_MIN, INT_MAX. lia.
Qed.

(** X6. A negative length is not taken as "nothing to copy": the comparison
    with [sizeof] is unsigned, so for every negative [int] the handler copies
    the maximum, 127 bytes of topic or 255 bytes of payload, as it does for
    the lengths 127 and 255. *)
Theorem negative_length_copies_maximum (junk_t junk_d topic data : list ascii)
    (topic_len data_len : Z) :
  INT_MIN <= topic_len < 0 ->
  INT_MIN <= data_len < 0 ->
  copy_len topic_len sizeof_topic_str = 127
  /\ copy_len data_len sizeof_data_str = 255
  /\ processar_mensagem_mqtt junk_t junk_d topic topic_len data data_len
     = processar_mensagem_mqtt junk_t junk_d topic 127 data 255.
Proof.
  intros Ht Hd.
  assert (E1 : copy_len topic_len sizeof_topic_str = 127)
    by (rewrite copy_len_negative; [reflexivity | vm_compute; split; discriminate | exact Ht]).
  assert (E2 : copy_len data_len sizeof_data_str = 255)
    by (rewrite copy_len_negative; [reflexivity | vm_compute; split; discriminate | exact Hd]).
  repeat split; try assumption.
  unfold processar_mensagem_mqtt, bounded_copy. rewrite E1, E2. reflexivity.
Qed.

Lemma negative_length_copies_maximum_witness :
  copy_len (-1) sizeof_topic_str = 127
  /\ option_map topic_str
       (processar_mensagem_mqtt [] [] (repeat "a"%char 300) (-1) (repeat "b"%char 300) (-1))
     = Some (repeat "a"%char 127 ++ [NUL]).
Proof.
  destruct (negative_length_copies_maximum [] [] (repeat "a"%char 300)
              (repeat "b"%char 300) (-1) (-1)) as (E1 & _ & E).
  - vm_compute. split; [discriminate | reflexivity].
  - vm_compute. split; [discriminate | reflexivity].
  - split; [exact E1 |]. rewrite E. vm_compute. reflexivity.
Defined.

(** ** Runs of the service: what they add to the trace *)

Lemma transport_publishes_app a b :
  transport_publishes (a ++ b) = (transport_publishes a + transport_publishes b)%nat.
Proof. unfold transport_publishes. now rewrite filter_app, length_app. Qed.

Lemma delays_app a b : delays (a ++ b) = (delays a + delays b)%nat.
Proof. unfold delays. now rewrite filter_app, length_app. Qed.

Lemma added_effect {A} (m : M A) w t : effect w (snd (m w)) t -> added m w = t.
Proof. intros (H & _). now apply added_app. Qed.

Lemma run_trans k1 d1 k2 d2 w w1 w2 t1 t2 :
  run k1 d1 w w1 t1 -> run k2 d2 w1 w2 t2 ->
  run (k1 + k2) (d1 + d2) w w2 (t1 ++ t2).
Proof.
  intros ((T1 & C1 & S1 & St1 & A1) & P1 & X1 & D1)
         ((T2 & C2 & S2 & St2 & A2) & P2 & X2 & D2).
  repeat split.
  - now rewrite T2, T1, app_assoc.
  - now rewrite C2.
  - now rewrite S2.
  - now rewrite St2.
  - now rewrite A2.
  - now rewrite publish_calls_app, P1, P2.
  - rewrite transport_publishes_app, X1, X2, C1.
    destruct (mqtt_client w =? NULL); reflexivity.
  - now rewrite delays_app, D1, D2.
Qed.

Lemma run_nothing w : run 0 0 w w [].
Proof.
  repeat split; try reflexivity.
  - now rewrite app_nil_r.
  - now destruct (mqtt_client w =? NULL).
Qed.

Lemma run_observe o w :
  is_publish_call o = false -> is_transport_publish o = false ->
  run 0 (if is_delay o then 1 else 0) w (snd (observe o w)) [o].
Proof.
  intros Hp Hx. repeat split; cbn.
  - unfold publish_calls. cbn. now rewrite Hp.
  - unfold transport_publishes. cbn. rewrite Hx.
    now destruct (mqtt_client w =? NULL).
  - unfold delays. cbn. now destruct (is_delay o).
Qed.

Lemma run_extern o w :
  is_publish_call o = false -> is_transport_publish o = false ->
  is_delay o = false ->
  run 0 0 w (snd (extern o w)) [o].
Proof.
  intros Hp Hx Hd. repeat split; cbn.
  - unfold publish_calls. cbn. now rewrite Hp.
  - unfold transport_publishes. cbn. rewrite Hx.
    now destruct (mqtt_client w =? NULL).
  - unfold delays. cbn. now rewrite Hd.
Qed.

Lemma run_publish topic data len qos retain w :
  exists t, run 1 0 w (snd (mqtt_publish_data topic data len qos retain w)) t.
Proof.
  rewrite mqtt_publish_data_eq.
  destruct (mqtt_client w =? NULL) eqn:E; cbv zeta; eexists; unfold run, effect;
    cbn [snd trace mqtt_client session statistics answers add_trace];
    rewrite E; repeat split.
Qed.

Lemma to_int_range z : INT_MIN <= to_int z <= INT_MAX.
Proof.
  unfold to_int, INT_MIN, INT_MAX.
  pose proof (Z.mod_pos_bound (z + 2 ^ 31) (2 ^ 32) ltac:(lia)). lia.
Qed.

Lemma to_int_to_uint32 z : to_int (to_uint32 z) = to_int z.
Proof.
  unfold to_int, to_uint32. now rewrite Zplus_mod_idemp_l.
Qed.

Lemma to_uint32_succ z : to_uint32 (to_uint32 z + 1) = to_uint32 (z + 1).
Proof. unfold to_uint32. now rewrite Zplus_mod_idemp_l. Qed.

(** X7. What [mqtt_publish_data] returns is -1 or a message id between 0
    and [INT_MAX]: every negative code of the transport comes out as -1.
    The result is a message id exactly when there is a client and the
    transport accepted, and it is then the transport's id.  The transport's
    publish is called once when there is a client and not at all when there
    is none. *)
Theorem mqtt_publish_data_result (topic data : list ascii) (len qos : Z)
    (retain : bool) (w : world) :
  let r := fst (mqtt_publish_data topic data len qos retain w) in
  let m := to_int (answers w (asked w)) in
  (r = -1 \/ 0 <= r <= INT_MAX)
  /\ (0 <= r <-> mqtt_client w <> NULL /\ 0 <= m)
  /\ (0 <= r -> r = m)
  /\ transport_publishes (added (mqtt_publish_data topic data len qos retain) w)
     = (if mqtt_client w =? NULL then 0%nat else 1%nat)
  /\ asked (snd (mqtt_publish_data topic data len qos retain w))
     = (if mqtt_client w =? NULL then asked w else S (asked w)).
Proof.
  cbv zeta.
  destruct (run_publish topic data len qos retain w) as (t & E & _ & X & _).
  rewrite (added_effect _ w t E), X. clear t E X.
  rewrite mqtt_publish_data_eq.
  pose proof (to_int_range (answers w (asked w))) as Hm.
  destruct (Z.eqb_spec (mqtt_client w) NULL) as [Hc | Hc]; cbv zeta; cbn [fst snd asked add_trace].
  - repeat split; intros; try lia; try reflexivity.
  - destruct (Z.ltb_spec (to_int (answers w (asked w))) 0);
      repeat split; intros; try assumption; try lia; try reflexivity.
Qed.

(** ** The event handler *)

Ltac run_handler :=
  unfold mqtt_event_handler, bind, observe, extern, update_session, ret;
  cbn [mqtt_client session statistics answers asked trace fst snd].

(** One event: what the handler adds to the trace, and what it keeps. *)
Lemma mqtt_event_handler_effect junk_t junk_d client e w :
  exists t,
    trace (snd (mqtt_event_handler junk_t junk_d client e w)) = trace w ++ t
    /\ filter is_transport_call t
       = (if is_connected_event e then subscriptions client else [])
    /\ mqtt_client (snd (mqtt_event_handler junk_t junk_d client e w)) = mqtt_client w
    /\ statistics (snd (mqtt_event_handler junk_t junk_d client e w)) = statistics w
    /\ asked (snd (mqtt_event_handler junk_t junk_d client e w))
       = (if is_connected_event e then S (S (asked w)) else asked w).
Proof.
  destruct w as [c se st an k tr].
  destruct e as [| | i | i | i | tp tl da dl | [|] | i]; run_handler;
    (eexists; split; [rewrite <- ?app_assoc; reflexivity | repeat split]).
Qed.

(** X8. Of all the events, the connection event alone makes the handler
    call the transport: it subscribes to [jardim/+/temperatura] with QoS 0
    and then to [demo/comandos/#] with QoS 1, on the client the event names.
    No event makes it publish, and none changes the global handle or the
    statistics. *)
Theorem event_handler_transport_calls (junk_t junk_d : list ascii) (client : Z)
    (e : mqtt_event) (w : world) :
  filter is_transport_call (added (mqtt_event_handler junk_t junk_d client e) w)
  = (if is_connected_event e then subscriptions client else [])
  /\ publish_calls (added (mqtt_event_handler junk_t junk_d client e) w) = 0%nat
  /\ mqtt_client (snd (mqtt_event_handler junk_t junk_d client e w)) = mqtt_client w
  /\ statistics (snd (mqtt_event_handler junk_t junk_d client e w)) = statistics w.
Proof.
  destruct (mqtt_event_handler_effect junk_t junk_d client e w)
    as (t & T & F & C & S & _).
  rewrite (added_app _ w t T). repeat split; try assumption.
  clear - T. destruct w as [c se st an k tr].
  destruct e as [| | i | i | i | tp tl da dl | [|] | i]; revert T; run_handler;
    rewrite <- ?app_assoc; intros T; apply app_inv_head in T; subst t; reflexivity.
Qed.

Lemma deliver_effect junk_t junk_d client events : forall w,
  exists t,
    trace (snd (deliver junk_t junk_d client events w)) = trace w ++ t
    /\ filter is_transport_call t
       = concat (map (fun e => if is_connected_event e
                               then subscriptions client else []) events)
    /\ mqtt_client (snd (deliver junk_t junk_d client events w)) = mqtt_client w.
Proof.
  induction events as [| e es IH]; intros w.
  - exists []. cbn. now rewrite app_nil_r.
  - cbn [deliver]. unfold bind.
    destruct (mqtt_event_handler_effect junk_t junk_d client e w)
      as (t1 & T1 & F1 & C1 & _).
    destruct (mqtt_event_handler junk_t junk_d client e w) as [u w1].
    cbn [snd] in *.
    destruct (IH w1) as (t2 & T2 & F2 & C2).
    exists (t1 ++ t2). repeat split.
    + now rewrite T2, T1, app_assoc.
    + cbn [map concat]. now rewrite filter_app, F1, F2.
    + now rewrite C2.
Qed.

(** X9. Over any sequence of events, the handler subscribes anew at every
    connection event: the calls to the transport are the two subscriptions,
    once for each connection event of the sequence, in order; a client that
    reconnects [n] times is subscribed [n] times over, and the global handle
    is never touched. *)
Theorem resubscribes_at_every_connection (junk_t junk_d : list ascii)
    (client : Z) (events : list mqtt_event) (w : world) :
  filter is_transport_call (added (deliver junk_t junk_d client events) w)
  = concat (repeat (subscriptions client)
              (length (filter is_connected_event events)))
  /\ mqtt_client (snd (deliver junk_t junk_d client events w)) = mqtt_client w.
Proof.
  destruct (deliver_effect junk_t junk_d client events w) as (t & T & F & C).
  rewrite (added_app _ w t T), F. split; [| exact C].
  clear. induction events as [| e es IH]; [reflexivity |].
  cbn [map concat filter]. destruct (is_connected_event e).
  - cbn [length repeat concat]. now rewrite IH.
  - cbn [app]. exact IH.
Qed.

(** ** Starting the client: the three ways out *)

Lemma mqtt_app_start_eq w :
  let h := to_uint32 (answers w (asked w)) in
  let err := to_int (answers w (S (S (asked w)))) in
  mqtt_app_start w =
  if h =? NULL then
    (NULL, {| mqtt_client := h; session := session w; statistics := statistics w;
              answers := answers w; asked := S (asked w);
              trace := trace w ++ [esp_mqtt_client_init; ESP_LOG LOG_E] |})
  else if err =? ESP_OK then
    (h, {| mqtt_client := h; session := Connecting; statistics := statistics w;
           answers := answers w; asked := S (S (S (asked w)));
           trace := trace w ++ [esp_mqtt_client_init;
                                esp_mqtt_client_register_event h;
                                esp_mqtt_client_start h; ESP_LOG LOG_I] |})
  else
    (NULL, {| mqtt_client := h; session := session w; statistics := statistics w;
              answers := answers w; asked := S (S (S (asked w)));
              trace := trace w ++ [esp_mqtt_client_init;
                                   esp_mqtt_client_register_event h;
                                   esp_mqtt_client_start h; ESP_LOG LOG_E] |}).
Proof.
  destruct w as [c se st an k tr]. cbv zeta.
  unfold mqtt_app_start, bind, extern, set_mqtt_client, observe, update_session, ret.
  cbn [mqtt_client session statistics answers asked trace].
  destruct (to_uint32 (an k) =? NULL);
    cbn [mqtt_client session statistics answers asked trace].
  - rewrite <- !app_assoc. reflexivity.
  - destruct (to_int (an (S (S k))) =? ESP_OK);
      cbn [negb mqtt_client session statistics answers asked trace];
      rewrite <- !app_assoc; reflexivity.
Qed.

(** X10. When the client is created but cannot be started,
    [mqtt_app_start] returns NULL and yet leaves the new handle in
    [mqtt_client]: a later [mqtt_publish_data] finds a handle and calls the
    transport's publish with the client that was never started. *)
Theorem failed_start_keeps_handle (topic data : list ascii) (len qos : Z)
    (retain : bool) (w : world) :
  to_uint32 (answers w (asked w)) <> NULL ->
  to_int (answers w (S (S (asked w)))) <> ESP_OK ->
  let w' := snd (mqtt_app_start w) in
  fst (mqtt_app_start w) = NULL
  /\ mqtt_client w' = to_uint32 (answers w (asked w))
  /\ session w' = session w
  /\ In (esp_mqtt_client_publish (mqtt_client w') topic data
           (if len =? 0 then to_int (strlen data) else len) qos
           (if retain then 1 else 0))
        (added (mqtt_publish_data topic data len qos retain) w').
Proof.
  intros Hh He. cbv zeta. rewrite mqtt_app_start_eq. cbv zeta.
  unfold NULL, ESP_OK in *.
  rewrite (eqb_zero_false _ Hh), (eqb_zero_false _ He).
  cbn [fst snd mqtt_client session]. repeat split.
  erewrite added_app.
  2:{ rewrite mqtt_publish_data_eq. cbn [mqtt_client]. unfold NULL.
      rewrite (eqb_zero_false _ Hh). cbv zeta. cbn [snd trace]. reflexivity. }
  cbn [In]. right. left. reflexivity.
Qed.

Lemma failed_start_keeps_handle_witness :
  fst (mqtt_app_start (boot (answers_of [handle_a; 0; 259; 7]))) = NULL
  /\ mqtt_client (snd (mqtt_app_start (boot (answers_of [handle_a; 0; 259; 7]))))
     = handle_a
  /\ In (esp_mqtt_client_publish handle_a (lit "t") (lit "x") 1 0 0)
        (added (mqtt_publish_data (lit "t") (lit "x") 0 0 false)
           (snd (mqtt_app_start (boot (answers_of [handle_a; 0; 259; 7]))))).
Proof.
  destruct (failed_start_keeps_handle (lit "t") (lit "x") 0 0 false
              (boot (answers_of [handle_a; 0; 259; 7]))) as (R & C & _ & P).
  - vm_compute. discriminate.
  - vm_compute. discriminate.
  - split; [exact R | split; [exact C | exact P]].
Defined.

(** X11. When the client cannot be created, [mqtt_app_start] returns NULL
    after the one call to [esp_mqtt_client_init]: no handler is registered,
    nothing is started, and [mqtt_client] is NULL afterwards, whatever handle
    it held before; a later [mqtt_publish_data] fails with -1 and does not
    reach the transport. *)
Theorem failed_init_clears_handle (topic data : list ascii) (len qos : Z)
    (retain : bool) (w : world) :
  to_uint32 (answers w (asked w)) = NULL ->
  let w' := snd (mqtt_app_start w) in
  fst (mqtt_app_start w) = NULL
  /\ mqtt_client w' = NULL
  /\ filter is_transport_call (added mqtt_app_start w) = [esp_mqtt_client_init]
  /\ fst (mqtt_publish_data topic data len qos retain w') = -1
  /\ filter is_transport_call (added (mqtt_publish_data topic data len qos retain) w')
     = [].
Proof.
  intros Hh. cbv zeta.
  assert (E := mqtt_app_start_eq w). cbv zeta in E. rewrite Hh in E.
  cbn [Z.eqb NULL] in E.
  split; [| split; [| split; [| split]]].
  - now rewrite E.
  - now rewrite E.
  - erewrite added_app; [| rewrite E; cbn [snd trace]; reflexivity]. reflexivity.
  - rewrite E. cbn [snd]. now rewrite publish_without_client.
  - rewrite E. cbn [snd]. erewrite added_app;
      [| rewrite publish_without_client by reflexivity; cbn; reflexivity].
    reflexivity.
Qed.

Lemma failed_init_clears_handle_witness :
  mqtt_client (connected [0]) = handle_a
  /\ fst (mqtt_app_start (connected [0])) = NULL
  /\ mqtt_client (snd (mqtt_app_start (connected [0]))) = NULL
  /\ fst (mqtt_publish_data (lit "t") (lit "x") 0 0 false
            (snd (mqtt_app_start (connected [0])))) = -1.
Proof.
  destruct (failed_init_clears_handle (lit "t") (lit "x") 0 0 false (connected [0]))
    as (R & C & _ & P & _).
  - vm_compute. reflexivity.
  - split; [vm_compute; reflexivity | split; [exact R | split; [exact C | exact P]]].
Defined.

(** ** The periodic publishers, turn after turn *)

Ltac run_publish_next w' t R :=
  match goal with
  | |- context [mqtt_publish_data ?a ?b ?c ?d ?e ?w] =>
      destruct (run_publish a b c d e w) as (t & R);
      destruct (mqtt_publish_data a b c d e w) as [? w'];
      cbn [snd] in R;
      cbn [extern observe ret mqtt_client session statistics answers asked trace]
  end.

(** One turn of [mqtt_publisher_task]: four entries, one wait, and the
    counter one further. *)
Lemma mqtt_publisher_cycle_run contador w :
  exists t,
    run 4 1 w (snd (mqtt_publisher_cycle contador w)) t
    /\ fst (mqtt_publisher_cycle contador w) = to_uint32 (contador + 1).
Proof.
  unfold mqtt_publisher_cycle, bind.
  run_publish_next w1 t1 R1.
  pose proof (run_extern rand w1 eq_refl eq_refl eq_refl) as Ra.
  run_publish_next w2 t2 R2.
  pose proof (run_extern rand w2 eq_refl eq_refl eq_refl) as Rb.
  run_publish_next w3 t3 R3.
  run_publish_next w4 t4 R4.
  pose proof (run_observe (vTaskDelay_ms 10000) w4 eq_refl eq_refl) as Rc.
  eexists. split; [| reflexivity].
  exact (run_trans _ _ _ _ _ _ _ _ _ R1
          (run_trans _ _ _ _ _ _ _ _ _ Ra
            (run_trans _ _ _ _ _ _ _ _ _ R2
              (run_trans _ _ _ _ _ _ _ _ _ Rb
                (run_trans _ _ _ _ _ _ _ _ _ R3
                  (run_trans _ _ _ _ _ _ _ _ _ R4 Rc)))))).
Qed.

Lemma mqtt_publisher_loop_run cycles : forall contador w,
  exists t,
    run (4 * cycles) cycles w (snd (mqtt_publisher_loop cycles contador w)) t
    /\ to_uint32 (fst (mqtt_publisher_loop cycles contador w))
       = to_uint32 (contador + Z.of_nat cycles).
Proof.
  induction cycles as [| n IH]; intros contador w.
  - exists []. split; [apply run_nothing |]. cbn. now rewrite Z.add_0_r.
  - cbn [mqtt_publisher_loop]. unfold bind.
    destruct (mqtt_publisher_cycle_run contador w) as (t1 & R1 & F1).
    destruct (mqtt_publisher_cycle contador w) as [c1 w1]. cbn [fst snd] in *.
    destruct (IH c1 w1) as (t2 & R2 & F2).
    exists (t1 ++ t2). split.
    + replace (4 * S n)%nat with (4 + 4 * n)%nat by lia.
      exact (run_trans _ _ _ _ _ _ _ _ _ R1 R2).
    + rewrite F2, F1. unfold to_uint32.
      rewrite Zplus_mod_idemp_l. f_equal. lia.
Qed.

Lemma mqtt_publisher_task_eq cycles w :
  mqtt_publisher_task cycles w
  = mqtt_publisher_loop cycles 0
      (add_trace [ESP_LOG LOG_I; vTaskDelay_ms 5000; ESP_LOG LOG_I] w).
Proof.
  destruct w as [c se st an k tr].
  unfold mqtt_publisher_task, bind, observe, add_trace.
  cbn [mqtt_client session statistics answers asked trace].
  now rewrite <- !app_assoc.
Qed.

(** X12. [mqtt_publisher_task], cut after any number [n] of turns of its
    loop: it waits 5000 ms before anything else; it then enters
    [mqtt_publish_data] four times a turn, [4 * n] times in all, and waits
    once a turn; each entry reaches the transport if [mqtt_client] holds a
    handle, and none does if it is NULL; its counter has then gone through
    [n] steps modulo 2^32.  The connection state is never asked. *)
Theorem mqtt_publisher_task_run (cycles : nat) (w : world) :
  exists t,
    added (mqtt_publisher_task cycles) w
    = ESP_LOG LOG_I :: vTaskDelay_ms 5000 :: ESP_LOG LOG_I :: t
    /\ publish_calls t = (4 * cycles)%nat
    /\ transport_publishes t
       = (if mqtt_client w =? NULL then 0%nat else (4 * cycles)%nat)
    /\ delays t = cycles
    /\ to_uint32 (fst (mqtt_publisher_task cycles w)) = to_uint32 (Z.of_nat cycles)
    /\ session (snd (mqtt_publisher_task cycles w)) = session w.
Proof.
  rewrite mqtt_publisher_task_eq.
  destruct (mqtt_publisher_loop_run cycles 0
              (add_trace [ESP_LOG LOG_I; vTaskDelay_ms 5000; ESP_LOG LOG_I] w))
    as (t & ((T & C & S & _) & P & X & D) & F).
  cbn [add_trace trace mqtt_client session] in *.
  exists t. repeat split; try assumption.
  apply added_app. rewrite mqtt_publisher_task_eq, T, <- !app_assoc. reflexivity.
Qed.

Lemma connected_session w :
  fst (mqtt_system_is_connected w) = true ->
  forall w', session w' = session w -> fst (mqtt_system_is_connected w') = true.
Proof. cbn. now intros H w' ->. Qed.

(** A turn of [custom_publish_task] with a connection. *)
Lemma custom_publish_cycle_online interval topic count w :
  fst (mqtt_system_is_connected w) = true ->
  exists t,
    run 1 1 w (snd (custom_publish_cycle interval topic count w)) t
    /\ fst (custom_publish_cycle interval topic count w) = to_uint32 (count + 1).
Proof.
  intros Hc. cbn in Hc.
  pose proof (run_observe (vTaskDelay_ms interval) w eq_refl eq_refl) as Ra.
  unfold custom_publish_cycle, bind, mqtt_system_is_connected.
  cbn [observe mqtt_client session statistics answers asked trace].
  rewrite Hc.
  run_publish_next w1 t1 R1.
  match goal with
  | |- context [if ?b then observe _ else observe _] => destruct b
  end.
  - pose proof (run_observe (ESP_LOG LOG_I) w1 eq_refl eq_refl) as Rb.
    eexists. split; [| reflexivity].
    exact (run_trans _ _ _ _ _ _ _ _ _ Ra (run_trans _ _ _ _ _ _ _ _ _ R1 Rb)).
  - pose proof (run_observe (ESP_LOG LOG_W) w1 eq_refl eq_refl) as Rb.
    eexists. split; [| reflexivity].
    exact (run_trans _ _ _ _ _ _ _ _ _ Ra (run_trans _ _ _ _ _ _ _ _ _ R1 Rb)).
Qed.

Lemma custom_publish_loop_online interval topic cycles : forall count w,
  fst (mqtt_system_is_connected w) = true ->
  exists t,
    run cycles cycles w (snd (custom_publish_loop interval topic cycles count w)) t
    /\ to_uint32 (fst (custom_publish_loop interval topic cycles count w))
       = to_uint32 (count + Z.of_nat cycles).
Proof.
  induction cycles as [| n IH]; intros count w Hc.
  - exists []. split; [apply run_nothing |]. cbn. now rewrite Z.add_0_r.
  - cbn [custom_publish_loop]. unfold bind.
    destruct (custom_publish_cycle_online interval topic count w Hc) as (t1 & R1 & F1).
    destruct (custom_publish_cycle interval topic count w) as [c1 w1].
    cbn [fst snd] in *.
    assert (Hc1 : fst (mqtt_system_is_connected w1) = true).
    { apply (connected_session w Hc). now destruct R1 as ((_ & _ & S & _) & _). }
    destruct (IH c1 w1 Hc1) as (t2 & R2 & F2).
    exists (t1 ++ t2). split.
    + exact (run_trans _ _ _ _ _ _ _ _ _ R1 R2).
    + rewrite F2, F1. unfold to_uint32.
      rewrite Zplus_mod_idemp_l. f_equal. lia.
Qed.

Lemma custom_publish_task_eq interval topic cycles w :
  custom_publish_task interval topic cycles w
  = custom_publish_loop interval topic cycles 0 (add_trace [ESP_LOG LOG_I] w).
Proof. reflexivity. Qed.



(** X14. [custom_publish_task] over any number [n] of turns during which
    the connection state does not change: with a connection it enters
    [mqtt_publish_data] once a turn, [n] times in all, and its count goes
    through [n] steps modulo 2^32; without one it never enters it and the
    count stays 0; in both cases it waits once a turn. *)
Theorem custom_publish_task_run (interval : Z) (topic : list ascii)
    (cycles : nat) (w : world) :
  let online := fst (mqtt_system_is_connected w) in
  publish_calls (added (custom_publish_task interval topic cycles) w)
  = (if online then cycles else 0%nat)
  /\ delays (added (custom_publish_task interval topic cycles) w) = cycles
  /\ to_uint32 (fst (custom_publish_task interval topic cycles w))
     = (if online then to_uint32 (Z.of_nat cycles) else 0).
Proof.
  cbv zeta. destruct (fst (mqtt_system_is_connected w)) eqn:Hc.
  - destruct (custom_publish_loop_online interval topic cycles 0
                (add_trace [ESP_LOG LOG_I] w) Hc)
      as (t & ((T & _) & P & _ & D) & F).
    rewrite <- custom_publish_task_eq in *.
    assert (A : added (custom_publish_task interval topic cycles) w
                = ESP_LOG LOG_I :: t).
    { apply added_app. rewrite T. cbn [add_trace trace].
      now rewrite <- app_assoc. }
    rewrite A. repeat split.
    + exact P.
    + exact D.
    + exact F.
  - rewrite custom_publish_task_eq.
    assert (A : added (custom_publish_task interval topic cycles) w
                = ESP_LOG LOG_I
                  :: concat (repeat [vTaskDelay_ms interval; ESP_LOG LOG_W] cycles)).
    { apply added_app. rewrite custom_publish_task_eq.
      rewrite custom_publish_loop_offline by exact Hc.
      cbn [snd add_trace trace]. now rewrite <- app_assoc. }
    rewrite A, custom_publish_loop_offline by exact Hc.
    cbn [fst]. repeat split.
    + clear. induction cycles as [| n IH]; [reflexivity | exact IH].
    + clear. induction cycles as [| n IH]; [reflexivity |].
      cbn [repeat concat]. change (delays (ESP_LOG LOG_I :: ?x)) with (delays x) in *.
      unfold delays in *. cbn. now rewrite IH.
Qed.

(** ** The simulated sensors *)

Lemma luminosity_range r : 0 <= to_int (to_uint32 r mod 11) <= 10.
Proof.
  pose proof (Z.mod_pos_bound (to_uint32 r) 11 ltac:(lia)).
  rewrite to_int_id; [lia | unfold in_int, INT_MIN, INT_MAX; lia].
Qed.

Lemma temperature_range r :
  -3 <= to_int (to_uint32 (to_uint32 r mod 49 - 3)) <= 45.
Proof.
  pose proof (Z.mod_pos_bound (to_uint32 r) 49 ltac:(lia)).
  rewrite to_int_to_uint32.
  rewrite to_int_id; [lia | unfold in_int, INT_MIN, INT_MAX; lia].
Qed.

(** The readings fit the 16-byte buffer: [snprintf] cuts nothing. *)
Lemma reading_fits v : -3 <= v <= 45 -> snprintf 16 (fmt_d v) = fmt_d v.
Proof.
  intros H.
  assert (E : v = Z.of_nat (Z.to_nat (v + 3)) - 3) by lia.
  assert (B : (Z.to_nat (v + 3) < 49)%nat) by lia.
  rewrite E. generalize dependent (Z.to_nat (v + 3)). clear.
  intros n _ B.
  do 49 (destruct n as [| n]; [reflexivity |]). lia.
Qed.

Lemma publish_entry topic data len qos retain w :
  exists t,
    run 1 0 w (snd (mqtt_publish_data topic data len qos retain w)) t
    /\ filter is_publish_call t = [call_mqtt_publish_data topic data len qos retain].
Proof.
  rewrite mqtt_publish_data_eq.
  destruct (mqtt_client w =? NULL) eqn:E; cbv zeta; eexists; unfold run, effect;
    cbn [snd trace mqtt_client session statistics answers add_trace];
    rewrite E; repeat split.
Qed.

(** X15. A turn of [sensor_simulate_task] with a connection: whatever
    [esp_random] returns, the task publishes two readings, a luminosity
    between 0 and 10 on [/casa/externo/luminosidade] and then a temperature
    between -3 and 45 on [/casa/sala/temperatura], each as its decimal text,
    uncut by the 16-byte buffer, with QoS 1 and without retain, and then
    waits once. *)
Theorem sensor_simulate_cycle_readings (w : world) :
  fst (mqtt_system_is_connected w) = true ->
  exists luminosity temperature,
    0 <= luminosity <= 10
    /\ -3 <= temperature <= 45
    /\ filter is_publish_call (added sensor_simulate_cycle w)
       = [call_mqtt_publish_data (lit "/casa/externo/luminosidade")
            (fmt_d luminosity) 0 1 false;
          call_mqtt_publish_data (lit "/casa/sala/temperatura")
            (fmt_d temperature) 0 1 false]
    /\ delays (added sensor_simulate_cycle w) = 1%nat.
Proof.
  intros Hc. cbn in Hc.
  assert (E : forall t, trace (snd (sensor_simulate_cycle w)) = trace w ++ t ->
                        added sensor_simulate_cycle w = t)
    by (intros; now apply added_app).
  revert E.
  unfold sensor_simulate_cycle, bind, mqtt_system_is_connected.
  cbn [fst snd]. rewrite Hc.
  cbn [extern observe ret mqtt_client session statistics answers asked trace].
  set (r1 := answers w (asked w)).
  rewrite (reading_fits (to_int (to_uint32 r1 mod 11)))
    by (pose proof (luminosity_range r1); lia).
  match goal with
  | |- context [mqtt_publish_data ?a ?b ?c ?d ?e ?w0] =>
      destruct (publish_entry a b c d e w0) as (t1 & ((T1 & _) & _ & _ & D1) & F1);
      destruct (mqtt_publish_data a b c d e w0) as [? w1]
  end.
  cbn [snd extern observe ret mqtt_client session statistics answers asked trace] in *.
  set (r2 := answers w1 (asked w1)).
  rewrite (reading_fits _ (temperature_range r2)).
  match goal with
  | |- context [mqtt_publish_data ?a ?b ?c ?d ?e ?w0] =>
      destruct (publish_entry a b c d e w0) as (t2 & ((T2 & _) & _ & _ & D2) & F2);
      destruct (mqtt_publish_data a b c d e w0) as [? w2]
  end.
  cbn [snd extern observe ret mqtt_client session statistics answers asked trace] in *.
  intros E.
  exists (to_int (to_uint32 r1 mod 11)),
         (to_int (to_uint32 (to_uint32 r2 mod 49 - 3))).
  split; [apply luminosity_range |]. split; [apply temperature_range |].
  rewrite (E ([esp_random] ++ t1 ++ [esp_random] ++ t2
              ++ [ESP_LOG LOG_I; vTaskDelay_ms SENSOR_SIMULATE_INTERVAL_MS])).
  - split.
    + rewrite !filter_app, F1, F2. reflexivity.
    + rewrite !delays_app, D1, D2. reflexivity.
  - rewrite T2, T1, <- !app_assoc. reflexivity.
Qed.

Lemma sensor_simulate_cycle_readings_witness :
  exists luminosity temperature,
    0 <= luminosity <= 10
    /\ -3 <= temperature <= 45
    /\ filter is_publish_call (added sensor_simulate_cycle (connected [25; 1; 2; 2]))
       = [call_mqtt_publish_data (lit "/casa/externo/luminosidade")
            (fmt_d luminosity) 0 1 false;
          call_mqtt_publish_data (lit "/casa/sala/temperatura")
            (fmt_d temperature) 0 1 false]
    /\ delays (added sensor_simulate_cycle (connected [25; 1; 2; 2])) = 1%nat.
Proof.
  apply (sensor_simulate_cycle_readings (connected [25; 1; 2; 2])).
  vm_compute. reflexivity.
Defined.

Example sensor_simulate_cycle_sample :
  filter is_publish_call (added sensor_simulate_cycle (connected [25; 1; 2; 2]))
  = [call_mqtt_publish_data (lit "/casa/externo/luminosidade") (lit "3") 0 1 false;
     call_mqtt_publish_data (lit "/casa/sala/temperatura") (lit "-1") 0 1 false].
Proof. vm_compute. reflexivity. Qed.

(** A turn of [sensor_simulate_task] with a connection. *)
Lemma sensor_simulate_cycle_online w :
  fst (mqtt_system_is_connected w) = true ->
  exists t, run 2 1 w (snd (sensor_simulate_cycle w)) t.
Proof.
  intros Hc. cbn in Hc.
  pose proof (run_extern esp_random w eq_refl eq_refl eq_refl) as Ra.
  unfold sensor_simulate_cycle, bind, mqtt_system_is_connected.
  cbn [fst snd]. rewrite Hc.
  cbn [extern observe ret mqtt_client session statistics answers asked trace].
  run_publish_next w1 t1 R1.
  pose proof (run_extern esp_random w1 eq_refl eq_refl eq_refl) as Rb.
  run_publish_next w2 t2 R2.
  pose proof (run_observe (ESP_LOG LOG_I) w2 eq_refl eq_refl) as Rc.
  pose proof (run_observe (vTaskDelay_ms SENSOR_SIMULATE_INTERVAL_MS)
                (snd (observe (ESP_LOG LOG_I) w2)) eq_refl eq_refl) as Rd.
  eexists.
  exact (run_trans _ _ _ _ _ _ _ _ _ Ra
          (run_trans _ _ _ _ _ _ _ _ _ R1
            (run_trans _ _ _ _ _ _ _ _ _ Rb
              (run_trans _ _ _ _ _ _ _ _ _ R2
                (run_trans _ _ _ _ _ _ _ _ _ Rc Rd))))).
Qed.

Lemma sensor_simulate_loop_online cycles : forall w,
  fst (mqtt_system_is_connected w) = true ->
  exists t, run (2 * cycles) cycles w (snd (sensor_simulate_loop cycles w)) t.
Proof.
  induction cycles as [| n IH]; intros w Hc.
  - exists []. apply run_nothing.
  - cbn [sensor_simulate_loop]. unfold bind.
    destruct (sensor_simulate_cycle_online w Hc) as (t1 & R1).
    destruct (sensor_simulate_cycle w) as [u w1]. cbn [snd] in *.
    assert (Hc1 : fst (mqtt_system_is_connected w1) = true).
    { apply (connected_session w Hc). now destruct R1 as ((_ & _ & S & _) & _). }
    destruct (IH w1 Hc1) as (t2 & R2).
    exists (t1 ++ t2).
    replace (2 * S n)%nat with (2 + 2 * n)%nat by lia.
    exact (run_trans _ _ _ _ _ _ _ _ _ R1 R2).
Qed.

Lemma sensor_simulate_task_eq cycles w :
  sensor_simulate_task cycles w
  = sensor_simulate_loop cycles (add_trace [ESP_LOG LOG_I] w).
Proof. reflexivity. Qed.

(** X16. [sensor_simulate_task] over any number [n] of turns during which
    the connection state does not change: with a connection it enters
    [mqtt_publish_data] twice a turn, [2 * n] times in all, and each entry
    reaches the transport if there is a client; without a connection it
    never enters it; in both cases it waits once a turn, [n] times. *)
Theorem sensor_simulate_task_run (cycles : nat) (w : world) :
  let online := fst (mqtt_system_is_connected w) in
  publish_calls (added (sensor_simulate_task cycles) w)
  = (if online then (2 * cycles)%nat else 0%nat)
  /\ transport_publishes (added (sensor_simulate_task cycles) w)
     = (if online && negb (mqtt_client w =? NULL) then (2 * cycles)%nat else 0%nat)
  /\ delays (added (sensor_simulate_task cycles) w) = cycles.
Proof.
  cbv zeta. destruct (fst (mqtt_system_is_connected w)) eqn:Hc.
  - destruct (sensor_simulate_loop_online cycles (add_trace [ESP_LOG LOG_I] w) Hc)
      as (t & ((T & _) & P & X & D)).
    rewrite <- sensor_simulate_task_eq in *.
    assert (A : added (sensor_simulate_task cycles) w = ESP_LOG LOG_I :: t).
    { apply added_app. rewrite T. cbn [add_trace trace]. now rewrite <- app_assoc. }
    rewrite A. cbn [add_trace mqtt_client] in X. repeat split.
    + exact P.
    + change (transport_publishes (ESP_LOG LOG_I :: t)) with (transport_publishes t).
      rewrite X. now destruct (mqtt_client w =? NULL).
    + exact D.
  - assert (A : added (sensor_simulate_task cycles) w
                = ESP_LOG LOG_I
                  :: concat (repeat [vTaskDelay_ms SENSOR_SIMULATE_INTERVAL_MS] cycles)).
    { apply added_app. rewrite sensor_simulate_task_eq.
      rewrite sensor_simulate_loop_offline by exact Hc.
      cbn [snd add_trace trace]. now rewrite <- app_assoc. }
    rewrite A. cbn [andb]. clear. repeat split.
    + induction cycles as [| n IH]; [reflexivity | exact IH].
    + induction cycles as [| n IH]; [reflexivity | exact IH].
    + induction cycles as [| n IH]; [reflexivity |].
      unfold delays in *. cbn in *. now rewrite IH.
Qed.

(** ** The entry point *)

Ltac app_main_cases init created :=
  unfold Main.tasks_running, Main.app_main;
  destruct (init =? Main.ESP_OK) eqn:Ei;
  [ destruct (created Main.fn_system_monitor_task =? Main.pdPASS) eqn:Em;
    [ destruct (created Main.fn_custom_publish_task =? Main.pdPASS) eqn:Ec;
      [ destruct (created Main.fn_sensor_simulate_task =? Main.pdPASS) eqn:Es | ] | ] | ];
  cbn [negb andb Main.logs repeat app Main.tasks_requested filter
       Main.is_error_log length];
  repeat match goal with
         | H : (?a =? ?b) = _ |- context [?a =? ?b] => rewrite H
         end;
  cbn [negb andb app filter length].

(** X17. [app_main] ends in one of two ways.  If [mqtt_system_init]
    returned [ESP_OK] and all three calls of [xTaskCreate] returned [pdPASS],
    the three tasks run and no error is logged.  In every other case exactly
    one error is logged, and the tasks created before the failure keep
    running: they are the first ones of monitor, custom publisher, sensor
    simulator, in this order. *)
Theorem app_main_outcome (m : Main.task_macros) (init : Z)
    (created : Main.task_fn -> Z) :
  let t := Main.app_main m init created in
  let all := [Main.fn_system_monitor_task; Main.fn_custom_publish_task;
              Main.fn_sensor_simulate_task] in
  let ok := (init =? Main.ESP_OK)
            && (created Main.fn_system_monitor_task =? Main.pdPASS)
            && (created Main.fn_custom_publish_task =? Main.pdPASS)
            && (created Main.fn_sensor_simulate_task =? Main.pdPASS) in
  length (filter Main.is_error_log t) = (if ok then 0%nat else 1%nat)
  /\ (Main.tasks_running created t = all <-> ok = true)
  /\ exists k, Main.tasks_running created t = firstn k all.
Proof.
  cbv zeta. app_main_cases init created.
  - split; [reflexivity |]. split; [tauto |]. now exists 3%nat.
  - split; [reflexivity |]. split; [split; discriminate |]. now exists 2%nat.
  - split; [reflexivity |]. split; [split; discriminate |]. now exists 1%nat.
  - split; [reflexivity |]. split; [split; discriminate |]. now exists 0%nat.
  - split; [reflexivity |]. split; [split; discriminate |]. now exists 0%nat.
Qed.


(** ** A message, from the transport to its branch *)

(** X19. A message event with a topic and a payload of any lengths: the
    event handler logs three lines and hands the message to
    [processar_mensagem_mqtt] once, which handles it without an access
    outside its arrays, on the copies cut to 127 and 255 bytes; the transport
    is not asked for anything. *)
Theorem data_event_handled (junk_t junk_d topic data : list ascii) (client : Z)
    (w : world) :
  Z.of_nat (length topic) <= INT_MAX ->
  Z.of_nat (length data) <= INT_MAX ->
  added (mqtt_event_handler junk_t junk_d client
           (MQTT_EVENT_DATA topic (Z.of_nat (length topic))
                            data (Z.of_nat (length data)))) w
  = [ESP_LOG LOG_I; ESP_LOG LOG_I; ESP_LOG LOG_I;
     message_handled
       (Some {| topic_str := topic_copy junk_t topic;
                data_str := data_copy junk_d data;
                done := dispatch (topic_copy junk_t topic)
                                 (data_copy junk_d data) |})]
  /\ asked (snd (mqtt_event_handler junk_t junk_d client
                   (MQTT_EVENT_DATA topic (Z.of_nat (length topic))
                                    data (Z.of_nat (length data))) w))
     = asked w.
Proof.
  intros Ht Hd. split.
  - apply added_app. destruct w as [c se st an k tr]. run_handler.
    rewrite (processar_inbound junk_t junk_d topic data Ht Hd).
    now rewrite <- !app_assoc.
  - destruct w as [c se st an k tr]. reflexivity.
Qed.

Lemma data_event_handled_witness :
  added (mqtt_event_handler [] [] handle_a
           (MQTT_EVENT_DATA (lit "demo/comandos/bomba") 19 (lit "DESLIGAR") 8))
        (connected [])
  = [ESP_LOG LOG_I; ESP_LOG LOG_I; ESP_LOG LOG_I;
     message_handled
       (Some {| topic_str := topic_copy [] (lit "demo/comandos/bomba");
                data_str := data_copy [] (lit "DESLIGAR");
                done := DesligarBomba |})].
Proof.
  destruct (data_event_handled [] [] (lit "demo/comandos/bomba") (lit "DESLIGAR")
              handle_a (connected [])) as (E & _).
  - vm_compute. discriminate.
  - vm_compute. discriminate.
  - exact E.
Defined.

(** ** Publication and statistics *)

(** C2, as the code has it.  [mqtt_publish_data] keeps no count.  For every
    call, the statistics after it are the statistics before it, field for
    field, whether or not the transport took the message; the outcome is told
    by the result alone, which is the transport's message id when there is a
    client and the transport accepted, and -1 in every other case. *)
Theorem publish_keeps_no_count (topic data : list ascii) (len qos : Z)
    (retain : bool) (w : world) :
  let m := to_int (answers w (asked w)) in
  let w' := snd (mqtt_publish_data topic data len qos retain w) in
  statistics w' = statistics w
  /\ total_publicadas (statistics w') = total_publicadas (statistics w)
  /\ falhas_publicacao (statistics w') = falhas_publicacao (statistics w)
  /\ ultima_mensagem_ts (statistics w') = ultima_mensagem_ts (statistics w)
  /\ fst (mqtt_publish_data topic data len qos retain w)
     = (if (mqtt_client w =? NULL) || (m <? 0) then -1 else m).
Proof.
  cbv zeta. rewrite mqtt_publish_data_eq.
  destruct (mqtt_client w =? NULL); cbv zeta; cbn [fst snd statistics add_trace orb].
  - repeat split.
  - destruct (to_int (answers w (asked w)) <? 0); repeat split.
Qed.

(** ** Commands and routing: every topic *)

Lemma cstr_app_nul a b : cstr (a ++ NUL :: b) = cstr a.
Proof.
  induction a as [| c a IH]; [reflexivity |].
  cbn. destruct (is_nul c); [reflexivity | now rewrite IH].
Qed.

(** The payload as the handler reads it: the first 255 bytes, up to the
    first NUL among them. *)
Lemma data_copy_cstr_any junk data :
  cstr (data_copy junk data) = cstr (firstn 255 data).
Proof.
  unfold data_copy. rewrite cstr_app_nul.
  destruct (Nat.le_gt_cases (length data) 255) as [Hle | Hgt].
  - rewrite Nat.min_l by assumption. now rewrite !firstn_all2 by lia.
  - rewrite Nat.min_r by lia. reflexivity.
Qed.

(** The payload mapping is not there for every command topic, nor for the
    exact payload alone: on [demo/comandos/luz] the payload [LIGAR] ends as
    an unhandled topic, logged for debugging, and on the pump's topic the
    payload [LIGAR], NUL, [x] switches the pump on. *)
Lemma command_mapping_one_topic_only :
  option_map done
    (processar_mensagem_mqtt [] [] (lit "demo/comandos/luz") 17 (lit "LIGAR") 5)
  = Some (TopicoNaoTratado (lit "demo/comandos/luz"))
  /\ log_of (TopicoNaoTratado (lit "demo/comandos/luz")) = LOG_D
  /\ option_map done
       (processar_mensagem_mqtt [] [] (lit "demo/comandos/bomba") 19
          (lit "LIGAR" ++ NUL :: lit "x") 7)
     = Some AcionarBomba.
Proof. repeat split; vm_compute; reflexivity. Qed.

(** C6, as the code has it.  A message with the text topic
    [demo/comandos/bomba]: the payload as the handler reads it, that is its
    first 255 bytes up to the first NUL among them, is compared exactly, case
    included; [LIGAR] gives the on action, [DESLIGAR] the off action, and
    every other value the "unknown command" line, logged as a warning; the
    handler returns normally.  A message with any other text topic, also one
    of the shape base/comandos/device, gets none of these three outcomes. *)
Theorem command_payload_compared (junk_t junk_d topic data : list ascii) :
  nul_free topic ->
  Z.of_nat (length topic) <= INT_MAX ->
  Z.of_nat (length data) <= INT_MAX ->
  let text := cstr (firstn 255 data) in
  exists r,
    processar_mensagem_mqtt junk_t junk_d
      topic (Z.of_nat (length topic)) data (Z.of_nat (length data)) = Some r
    /\ (topic = lit "demo/comandos/bomba" ->
        (text = lit "LIGAR" -> done r = AcionarBomba)
        /\ (text = lit "DESLIGAR" -> done r = DesligarBomba)
        /\ (text <> lit "LIGAR" -> text <> lit "DESLIGAR" ->
            done r = ComandoDesconhecido text /\ log_of (done r) = LOG_W))
    /\ (topic <> lit "demo/comandos/bomba" -> is_bomba_action (done r) = false).
Proof.
  intros Hnf Ht Hd text. eexists. split; [now apply processar_inbound |].
  cbn [done]. split.
  - intros ->.
    rewrite dispatch_bomba
      by (rewrite topic_copy_cstr by literal_nul_free; reflexivity).
    rewrite data_copy_cstr_any. fold text. unfold list_ascii_eqb.
    split; [| split].
    + intros ->. reflexivity.
    + intros ->. reflexivity.
    + intros H1 H2.
      destruct (list_eq_dec ascii_dec text (lit "LIGAR")); [contradiction |].
      destruct (list_eq_dec ascii_dec text (lit "DESLIGAR")); [contradiction |].
      split; reflexivity.
  - intros Hne. apply dispatch_not_bomba.
    intros E. apply Hne.
    apply (topic_copy_cstr_eq junk_t topic) in E; [exact E | exact Hnf | cbn; lia].
Qed.

Lemma command_payload_compared_witness :
  exists r,
    processar_mensagem_mqtt [] [] (lit "demo/comandos/bomba") 19 (lit "ligar") 5 = Some r
    /\ done r = ComandoDesconhecido (lit "ligar")
    /\ log_of (done r) = LOG_W.
Proof.
  destruct (command_payload_compared [] [] (lit "demo/comandos/bomba") (lit "ligar"))
    as (r & Hr & Hb & _).
  - literal_nul_free.
  - vm_compute. discriminate.
  - vm_compute. discriminate.
  - exists r. split; [exact Hr |].
    destruct (Hb eq_refl) as (_ & _ & Hw).
    apply Hw; intros H; vm_compute in H; discriminate H.
Defined.

(** C7, as the code has it.  The handler does not match topics level by
    level against patterns; it routes a text topic of at most 127 bytes by
    fixed tests, in this order: the pump branch exactly for the topic
    [demo/comandos/bomba]; the valve branch exactly for the topic
    [demo/comandos/valvula/]; and for every other topic the temperature
    branch exactly when [temperatura] occurs somewhere in the topic, the
    message being logged as unhandled, with its topic, when it does not.  So
    every topic that matches [jardim/+/temperatura] level by level reaches the
    temperature branch, and so does every other topic in which the word
    occurs. *)
Theorem routing_by_fixed_tests (junk_t junk_d topic data : list ascii) :
  nul_free topic ->
  (length topic <= 127)%nat ->
  Z.of_nat (length data) <= INT_MAX ->
  exists r,
    processar_mensagem_mqtt junk_t junk_d
      topic (Z.of_nat (length topic)) data (Z.of_nat (length data)) = Some r
    /\ (is_bomba_action (done r) = true <-> topic = lit "demo/comandos/bomba")
    /\ ((exists n, done r = ComandoValvula n (cstr (data_str r)))
        <-> topic = lit "demo/comandos/valvula/")
    /\ (topic <> lit "demo/comandos/bomba" ->
        topic <> lit "demo/comandos/valvula/" ->
        (done r = TemperaturaRecebida (cstr (data_str r))
         <-> occurs (lit "temperatura") topic)
        /\ (~ occurs (lit "temperatura") topic -> done r = TopicoNaoTratado topic))
    /\ (spec_topic_matches (lit "jardim/+/temperatura") topic = true ->
        done r = TemperaturaRecebida (cstr (data_str r))).
Proof.
  intros Hnf Hlen Hd. eexists. split.
  - apply processar_inbound; [unfold INT_MAX; lia | assumption].
  - cbn [done data_str].
    set (t := topic_copy junk_t topic). set (d := data_copy junk_d data).
    assert (Hc : cstr t = topic).
    { unfold t. rewrite topic_copy_cstr by assumption. now apply firstn_all2. }
    assert (Hs := strstr_topic_copy junk_t topic (lit "temperatura") Hnf Hlen).
    fold t in Hs.
    assert (Hrest : topic <> lit "demo/comandos/bomba" ->
                    topic <> lit "demo/comandos/valvula/" ->
                    dispatch t d
                    = match strstr t (lit "temperatura") with
                      | Some _ => TemperaturaRecebida (cstr d)
                      | None => TopicoNaoTratado topic
                      end).
    { intros Hb Hv. unfold dispatch.
      rewrite eqb_zero_false
        by (intros H; apply bomba_branch_iff in H; rewrite Hc in H; contradiction).
      rewrite eqb_zero_false
        by (intros H; apply valvula_branch_iff in H; rewrite Hc in H; contradiction).
      now rewrite Hc. }
    assert (Htemp : topic <> lit "demo/comandos/bomba" ->
                    topic <> lit "demo/comandos/valvula/" ->
                    occurs (lit "temperatura") topic ->
                    dispatch t d = TemperaturaRecebida (cstr d)).
    { intros Hb Hv Ho. rewrite (Hrest Hb Hv).
      apply Hs in Ho; [| literal_nul_free].
      now destruct (strstr t (lit "temperatura")). }
    split; [| split; [| split]].
    + split.
      * intros H.
        destruct (list_eq_dec ascii_dec (cstr t) (lit "demo/comandos/bomba"))
          as [E | E]; [now rewrite <- Hc |].
        rewrite (dispatch_not_bomba _ _ E) in H. discriminate H.
      * intros H. apply dispatch_is_bomba. now rewrite Hc.
    + split.
      * intros (n & H).
        destruct (list_eq_dec ascii_dec (cstr t) (lit "demo/comandos/valvula/"))
          as [E | E]; [now rewrite <- Hc |].
        exfalso. exact (dispatch_not_valvula _ _ _ _ E H).
      * intros H. eexists. apply dispatch_valvula. now rewrite Hc.
    + intros Hb Hv. split; [split |].
      * intros H. apply Hs; [literal_nul_free |].
        rewrite (Hrest Hb Hv) in H.
        destruct (strstr t (lit "temperatura")); [discriminate | discriminate H].
      * now apply Htemp.
      * intros Hn. rewrite (Hrest Hb Hv).
        destruct (strstr t (lit "temperatura")) eqn:S; [| reflexivity].
        exfalso. apply Hn, Hs; [literal_nul_free | discriminate].
    + intros Hm. destruct (temperatura_pattern_inv topic Hm) as (level & E).
      apply Htemp.
      * rewrite E. discriminate.
      * rewrite E. discriminate.
      * exists (lit "jardim/" ++ level ++ lit "/"), [].
        rewrite E, app_nil_r, <- !app_assoc. reflexivity.
Qed.

Lemma routing_by_fixed_tests_witness :
  exists r,
    processar_mensagem_mqtt [] [] (lit "demo/comandos/temperatura") 25 (lit "LIGAR") 5
    = Some r
    /\ done r = TemperaturaRecebida (cstr (data_str r)).
Proof.
  destruct (routing_by_fixed_tests [] [] (lit "demo/comandos/temperatura")
              (lit "LIGAR")) as (r & Hr & _ & _ & Ht & _).
  - literal_nul_free.
  - cbn. lia.
  - vm_compute. discriminate.
  - exists r. split; [exact Hr |].
    apply Ht; [discriminate | discriminate |].
    exists (lit "demo/comandos/"), []. reflexivity.
Defined.
